(** * Trador: trade dashboard and fill model

    A shallow embedding of the parts of the repository that the
    specification talks about:

    - the TypeScript types of [ui/src/types/bots.ts] and the trade-history
      component ([TradesHistory]): position status, per-trade PnL,
      pagination;
    - the API client ([fetchBotTrades]) and the bot form ([validateForm],
      [handleSubmit]);
    - the fill model of the execution engine, whose Python sources are not
      among the repository files and which is therefore modelled from the
      specification.

    JavaScript numbers that carry prices and quantities are modelled as exact
    rationals [Q]; rounding of IEEE doubles is not modelled.  Array indices
    and page numbers are integers. *)

From Stdlib Require Import ZArith QArith Qminmax Qround Lia Sorting.Sorted Permutation.
From stdpp Require Import base option list strings gmap.

Open Scope Z_scope.

(** ** Constants ([ui/src/constants/botStatus.ts]) *)

Module POSITION_STATUS.
Definition OPEN : string := "open".
Definition CLOSED : string := "closed".
Definition UNKNOWN : string := "unknown".
End POSITION_STATUS.

Module TRADE_SIDE.
Definition BUY : string := "buy".
Definition SELL : string := "sell".
End TRADE_SIDE.

Module TRADE_TYPE.
Definition OPEN : string := "open".
Definition CLOSE : string := "close".
Definition UNKNOWN : string := "unknown".
End TRADE_TYPE.

(** ** Bot types ([ui/src/types/bots.ts]) *)

Inductive PositionSide := long | short.

Record Position := mkPosition {
  pos_symbol : string;
  pos_quantity : Q;
  pos_price : Q;
  pos_side : PositionSide
}.

Record BotStatus := mkBotStatus {
  bs_pnl : Q;
  bs_positions : list Position;
  bs_balance : Q;
  bs_equity : Q
}.

(** [type] and [pnl] are optional fields: [None] is JavaScript's
    [undefined]. *)
Record Trade := mkTrade {
  timestamp : string;
  symbol : string;
  side : string;
  price : Q;
  quantity : Q;
  type : option string;
  pnl : option Q
}.

(** ** JavaScript array helpers *)

Section JsArray.
Context {A : Type}.

(** [Array.prototype.find]: the first element satisfying the predicate. *)
Fixpoint js_find (p : A -> bool) (l : list A) : option A :=
  match l with
  | [] => None
  | x :: r => if p x then Some x else js_find p r
  end.

(** [Array.prototype.some]. *)
Definition js_some (p : A -> bool) (l : list A) : bool := existsb p l.

(** [Array.prototype.slice(start, end)]: negative arguments count from the
    end of the array, both are clamped to the array. *)
Definition js_slice (l : list A) (start end_ : Z) : list A :=
  let len := Z.of_nat (length l) in
  let k := if start <? 0 then Z.max (len + start) 0 else Z.min start len in
  let final := if end_ <? 0 then Z.max (len + end_) 0 else Z.min end_ len in
  take (Z.to_nat (final - k)) (drop (Z.to_nat k) l).

(** [Array.prototype.sort(cmp)] is a stable sort: [a] is placed before [b]
    when [cmp a b <= 0], elements that compare equal keep their order. *)
Fixpoint js_sort_insert (cmp : A -> A -> Z) (x : A) (l : list A) : list A :=
  match l with
  | [] => [x]
  | y :: r => if cmp x y <=? 0 then x :: y :: r else y :: js_sort_insert cmp x r
  end.

Definition js_sort (cmp : A -> A -> Z) (l : list A) : list A :=
  foldr (js_sort_insert cmp) [] l.
End JsArray.

(** [Math.ceil(n / d)] for an array length [n] and a positive page size
    [d]. *)
Definition Math_ceil_div (n d : Z) : Z := - ((- n) / d).

(** ** The trade-history component ([TradesHistory]) *)

Module TradesHistory.

Definition TRADES_PER_PAGE : Z := 5.

Definition same_symbol (t : Trade) (pos : Position) : bool :=
  bool_decide (pos_symbol pos = symbol t).

(** [getPositionStatus]: the explicit backend type wins; otherwise the
    status is guessed from the open positions of [botStatus]. The
    [botStatus] query result is [None] while it is undefined. *)
Definition getPositionStatus (botStatus : option BotStatus) (trade : Trade) : string :=
  if bool_decide (type trade = Some TRADE_TYPE.OPEN) then POSITION_STATUS.OPEN
  else if bool_decide (type trade = Some TRADE_TYPE.CLOSE) then POSITION_STATUS.CLOSED
  else match botStatus with
       | None => POSITION_STATUS.UNKNOWN
       | Some bs =>
           if js_some (same_symbol trade) (bs_positions bs)
           then POSITION_STATUS.OPEN
           else POSITION_STATUS.CLOSED
       end.

Record PnLResult := mkPnL { res_pnl : option Q; isLive : bool }.

(** [trade.pnl !== undefined && trade.pnl !== 0]. *)
Definition explicit_pnl (trade : Trade) : option Q :=
  match pnl trade with
  | Some p => if Qeq_bool p 0 then None else Some p
  | None => None
  end.

(** The open position used for the live figure: only looked up when the
    trade is shown as open and a bot status is available. *)
Definition live_position (botStatus : option BotStatus) (trade : Trade) : option Position :=
  if bool_decide (getPositionStatus botStatus trade = POSITION_STATUS.OPEN) then
    match botStatus with
    | Some bs => js_find (same_symbol trade) (bs_positions bs)
    | None => None
    end
  else None.

Definition unrealizedPnL (position : Position) (trade : Trade) : Q :=
  let currentPrice := pos_price position in
  let entryPrice := price trade in
  if bool_decide (side trade = TRADE_SIDE.BUY) then
    (currentPrice - entryPrice) * quantity trade
  else if bool_decide (side trade = TRADE_SIDE.SELL) then
    (entryPrice - currentPrice) * quantity trade
  else 0%Q.

(** The "completed buy/sell pair" fallback: [trades[index - 1]]. *)
Definition pairPnL (trades : list Trade) (trade : Trade) (index : nat) : option Q :=
  if bool_decide (side trade = TRADE_SIDE.SELL) && bool_decide (0 < index)%nat then
    match trades !! (index - 1)%nat with
    | Some prevTrade =>
        if bool_decide (side prevTrade = TRADE_SIDE.BUY)
           && bool_decide (symbol prevTrade = symbol trade)
        then Some ((price trade - price prevTrade)
                   * Qmin (quantity trade) (quantity prevTrade))%Q
        else None
    | None => None
    end
  else None.

(** [calculateTradePnL(trade, index)]; [trades] is [None] while the query
    has no data. *)
Definition calculateTradePnL (trades : option (list Trade))
    (botStatus : option BotStatus) (trade : Trade) (index : nat) : PnLResult :=
  match trades with
  | None => mkPnL None false
  | Some trades =>
      match explicit_pnl trade with
      | Some p => mkPnL (Some p) false
      | None =>
          match live_position botStatus trade with
          | Some position => mkPnL (Some (unrealizedPnL position trade)) true
          | None => mkPnL (pairPnL trades trade index) false
          end
      end
  end.

(** The specification's direction sign, read off the side of the trade that
    opened the position: [+1] for a buy (long), [-1] for a sell (short). *)
Definition direction_sign (trade_side : string) : Q :=
  if bool_decide (trade_side = TRADE_SIDE.BUY) then 1 else -1.

(** The specification's formulas, in its own words:
    [(mark_price - entry_price) * quantity * direction_sign] and
    [(fill_price - entry_price) * closed_quantity * direction_sign]. *)
Definition unrealized_pnl_spec (mark_price entry_price qty sign : Q) : Q :=
  (mark_price - entry_price) * qty * sign.

Definition realized_pnl_spec (fill_price entry_price closed_quantity sign : Q) : Q :=
  (fill_price - entry_price) * closed_quantity * sign.

Section Pagination.
(** [new Date(timestamp).getTime()]: the epoch milliseconds of a
    well-formed timestamp. *)
Variable Date_getTime : string -> Z.

Definition newest_first (a b : Trade) : Z :=
  Date_getTime (timestamp b) - Date_getTime (timestamp a).

Definition sortedTrades (trades : list Trade) : list Trade :=
  js_sort newest_first trades.

(** Trade [a] is not older than trade [b]: the order of a newest-first
    list. *)
Definition not_older (a b : Trade) : Prop :=
  Date_getTime (timestamp b) <= Date_getTime (timestamp a).

Definition paginatedTrades (trades : option (list Trade)) (currentPage : Z)
    : list Trade :=
  match trades with
  | None => []
  | Some trades =>
      let startIndex := (currentPage - 1) * TRADES_PER_PAGE in
      js_slice (sortedTrades trades) startIndex (startIndex + TRADES_PER_PAGE)
  end.

(** The rows of one page: [paginatedTrades.map((trade, index) => ...)]. *)
Definition pageRows (trades : option (list Trade)) (botStatus : option BotStatus)
    (currentPage : Z) : list (Trade * PnLResult) :=
  imap (fun index trade => (trade, calculateTradePnL trades botStatus trade index))
       (paginatedTrades trades currentPage).
End Pagination.

Definition totalPages (trades : option (list Trade)) : Z :=
  match trades with
  | Some trades => Math_ceil_div (Z.of_nat (length trades)) TRADES_PER_PAGE
  | None => 0
  end.

(** [goToPage(page)]: the value handed to [setCurrentPage]. *)
Definition goToPage (trades : option (list Trade)) (page : Z) : Z :=
  Z.max 1 (Z.min page (totalPages trades)).

(** The state the pagination reads: the [trades] of the query result
    ([None] while it is undefined) and the [currentPage] of [useState]. *)
Record PageState := mkPageState {
  st_trades : option (list Trade);
  st_currentPage : Z
}.

(** What changes that state: a click on a page button, which calls
    [goToPage] with the trades of that moment, and the arrival of a query
    result (the component refetches every second), which replaces [trades]
    and leaves [currentPage] as it is. *)
Inductive PageEvent :=
| Clicked (page : Z)
| Refetched (trades : option (list Trade)).

Definition pageStep (s : PageState) (e : PageEvent) : PageState :=
  match e with
  | Clicked page => mkPageState (st_trades s) (goToPage (st_trades s) page)
  | Refetched trades => mkPageState trades (st_currentPage s)
  end.

(** [useState(1)], with no query result yet. *)
Definition initialPage : Z := 1.
Definition initialState : PageState := mkPageState None initialPage.



Definition finalState (events : list PageEvent) : PageState :=
  foldl pageStep initialState events.

Definition currentPage (events : list PageEvent) : Z :=
  st_currentPage (finalState events).






End TradesHistory.

(** ** Declared shapes of the query results ([ui/src/types/bots.ts])

    The interface declarations themselves, as data: field names in
    declaration order, whether a field is optional ([?]), and its type. *)

Inductive TsType :=
| TsNumber
| TsString
| TsBoolean
| TsUnknown
| TsLiterals (alternatives : list string)
| TsArray (element : TsType)
| TsRef (interface_name : string).

Record TsField := mkField {
  field_name : string;
  field_optional : bool;
  field_type : TsType
}.

Record TsInterface := mkInterface {
  iface_name : string;
  iface_fields : list TsField;
  iface_index_signature : option TsType
}.

Module Interfaces.

Definition Position : TsInterface :=
  mkInterface "Position"
    [ mkField "symbol" false TsString;
      mkField "quantity" false TsNumber;
      mkField "price" false TsNumber;
      mkField "side" false (TsLiterals ["long"; "short"]) ]
    None.

Definition BotStatus : TsInterface :=
  mkInterface "BotStatus"
    [ mkField "pnl" false TsNumber;
      mkField "positions" false (TsArray (TsRef "Position"));
      mkField "balance" false TsNumber;
      mkField "equity" false TsNumber ]
    None.

Definition Trade : TsInterface :=
  mkInterface "Trade"
    [ mkField "timestamp" false TsString;
      mkField "symbol" false TsString;
      mkField "side" false TsString;
      mkField "price" false TsNumber;
      mkField "quantity" false TsNumber;
      mkField "type" true TsString;
      mkField "pnl" true TsNumber ]
    None.

Definition RiskEvaluationDetails : TsInterface :=
  mkInterface "RiskEvaluationDetails"
    [ mkField "value" true TsNumber;
      mkField "threshold" true TsNumber;
      mkField "message" true TsString ]
    (Some TsUnknown).

Definition RiskEvaluation : TsInterface :=
  mkInterface "RiskEvaluation"
    [ mkField "rule_name" false TsString;
      mkField "is_violated" false TsBoolean;
      mkField "details" false (TsRef "RiskEvaluationDetails") ]
    None.

Definition BotRisk : TsInterface :=
  mkInterface "BotRisk"
    [ mkField "evaluations" false (TsArray (TsRef "RiskEvaluation"));
      mkField "kill_switch_activated" false TsBoolean ]
    None.

End Interfaces.





(** ** The API client ([ui/src/lib/api.ts]) *)

Module Api.

Record AxiosResponse (A : Type) := mkResponse { data : A; status : Z }.
Arguments mkResponse {A} _ _.
Arguments data {A} _.
Arguments status {A} _.

(** A rejected request: [response] is absent when the server sent no
    response (network error, timeout). *)
Record AxiosError := mkError {
  message : string;
  response : option (AxiosResponse string)
}.

(** How a promise settles: fulfilled with a value or rejected with the
    thrown error. *)
Inductive Settled (A : Type) :=
| Fulfilled (value : A)
| Thrown (error : AxiosError).
Arguments Fulfilled {A} _.
Arguments Thrown {A} _.

(** [error?.response?.status]. *)
Definition error_status (error : AxiosError) : option Z :=
  status <$> response error.

Section Client.
(** [api.get<Trade[]>(url)]: the backend, as seen by the client. *)
Variable api_get : string -> Settled (AxiosResponse (list Trade)).

Definition fetchBotTrades (botId : string) : Settled (list Trade) :=
  match api_get ("/bots/" +:+ botId +:+ "/trades") with
  | Fulfilled response => Fulfilled (data response)
  | Thrown error =>
      if bool_decide (error_status error = Some 404) then Fulfilled []
      else Thrown error
  end.
End Client.

End Api.

(** ** JavaScript values held by form parameters

    [NaN] is kept apart from the finite numbers; infinities do not occur in
    the form. *)

Inductive JsNumber := NaN | Num (q : Q).

Inductive JsValue :=
| JsUndefined
| JsNull
| JsBoolean (b : bool)
| JsNum (n : JsNumber)
| JsString (s : string).

Definition isNaN (n : JsNumber) : bool :=
  match n with NaN => true | Num _ => false end.

(** [Number.isInteger]. *)
Definition Number_isInteger (n : JsNumber) : bool :=
  match n with
  | NaN => false
  | Num q => Qeq_bool q (inject_Z (Qfloor q))
  end.

(** Comparisons with [NaN] are false. *)
Definition js_lt (a : JsNumber) (b : Q) : bool :=
  match a with NaN => false | Num q => negb (Qle_bool b q) end.

Definition js_gt (a : JsNumber) (b : Q) : bool :=
  match a with NaN => false | Num q => negb (Qle_bool q b) end.

Definition js_le (a : JsNumber) (b : Q) : bool :=
  match a with NaN => false | Num q => Qle_bool q b end.

(** ** The bot form ([BotModal]) *)

Module BotModal.

Inductive ModalMode := create | edit.

#[global] Instance ModalMode_eq_dec : EqDecision ModalMode.
Proof. solve_decision. Defined.

(** [StrategyParameterSchema]; [default_value] is the [default] key, [None]
    when the schema object has no such key (['default' in schema] is
    false). *)
Record StrategyParameterSchema := mkSchema {
  sch_type : string;
  minimum : option Q;
  maximum : option Q;
  default_value : option JsValue;
  description : string
}.

(** [parameter_schema] in the order of [Object.entries]. *)
Record StrategyInfo := mkStrategy {
  name : string;
  parameter_schema : list (string * StrategyParameterSchema)
}.

Record FormData := mkForm {
  id : string;
  strategy : string;
  symbol : string;
  mode : string;
  initial_balance : JsNumber;
  parameters : gmap string JsValue;
  configuration : string
}.

(** The text of a validation error; the two bound messages embed the
    bound. *)
Inductive ErrorText :=
| Text (s : string)
| Required (paramName : string)
| MustBeNumber (paramName : string)
| MustBeInteger (paramName : string)
| AtLeast (paramName : string) (bound : Q)
| AtMost (paramName : string) (bound : Q).

(** A JavaScript string is held as the bytes of its UTF-8 encoding.
    [characters] cuts it into its characters: a byte together with the
    continuation bytes (128 to 191) that follow it. *)
Definition is_continuation (c : Ascii.ascii) : bool :=
  let n := Ascii.N_of_ascii c in
  ((128 <=? n) && (n <=? 191))%N.

Fixpoint characters (s : string) : list string :=
  match s with
  | EmptyString => []
  | String c r =>
      let starts_inside :=
        match r with
        | String c' _ => is_continuation c'
        | EmptyString => false
        end in
      match characters r with
      | ch :: chs =>
          if starts_inside then String c ch :: chs
          else String c EmptyString :: ch :: chs
      | [] => [String c EmptyString]
      end
  end.

(** The characters removed by [String.prototype.trim], the white space and
    the line terminators of ECMAScript: U+0009 to U+000D and U+0020;
    U+00A0; U+1680; U+2000 to U+200A, U+2028, U+2029 and U+202F; U+205F;
    U+3000; U+FEFF. *)
Definition is_space (ch : string) : bool :=
  match map Ascii.N_of_ascii (String.list_ascii_of_string ch) with
  | [a] => ((9 <=? a) && (a <=? 13) || (a =? 32))%N
  | [a; b] => ((a =? 194) && (b =? 160))%N
  | [a; b; c] =>
      ((a =? 225) && (b =? 154) && (c =? 128)
       || (a =? 226) && (b =? 128)
          && ((128 <=? c) && (c <=? 138) || (c =? 168) || (c =? 169) || (c =? 175))
       || (a =? 226) && (b =? 129) && (c =? 159)
       || (a =? 227) && (b =? 128) && (c =? 128)
       || (a =? 239) && (b =? 187) && (c =? 191))%N
  | _ => false
  end.

Fixpoint trim_start (chs : list string) : list string :=
  match chs with
  | [] => []
  | ch :: rest => if is_space ch then trim_start rest else chs
  end.

Definition trim_end (chs : list string) : list string :=
  reverse (trim_start (reverse chs)).

Definition trim (s : string) : string :=
  String.concat "" (trim_end (trim_start (characters s))).

(** The character class [[a-zA-Z0-9_-]]. *)
Definition id_char (c : Ascii.ascii) : bool :=
  let n := Ascii.nat_of_ascii c in
  ((97 <=? n) && (n <=? 122) || (65 <=? n) && (n <=? 90)
   || (48 <=? n) && (n <=? 57) || (n =? 95) || (n =? 45))%nat.

Fixpoint all_chars (p : Ascii.ascii -> bool) (s : string) : bool :=
  match s with
  | EmptyString => true
  | String c r => p c && all_chars p r
  end.

(** [/^[a-zA-Z0-9_-]+$/.test(s)]. *)
Definition id_regex_test (s : string) : bool :=
  negb (bool_decide (s = "")) && all_chars id_char s.

Section Form.
(** [Number(s)] for a string [s] (the JavaScript string-to-number
    grammar). *)
Variable Number_of_string : string -> JsNumber.

Definition Number (v : JsValue) : JsNumber :=
  match v with
  | JsUndefined => NaN
  | JsNull => Num 0
  | JsBoolean b => Num (if b then 1 else 0)
  | JsNum n => n
  | JsString s => Number_of_string s
  end.

(** [value === undefined || value === null || value === ''];  a key that
    is missing from [formData.parameters] reads as [undefined]. *)
Definition param_value (parameters : gmap string JsValue) (paramName : string) : JsValue :=
  default JsUndefined (parameters !! paramName).

Definition is_blank (v : JsValue) : bool :=
  match v with
  | JsUndefined | JsNull => true
  | JsString s => bool_decide (s = "")
  | _ => false
  end.

Definition param_key (paramName : string) : string := "parameters." +:+ paramName.

(** The body of the [forEach] over the schema entries. *)
Definition validateParameter (parameters : gmap string JsValue)
    (newErrors : gmap string ErrorText) (entry : string * StrategyParameterSchema)
    : gmap string ErrorText :=
  let '(paramName, schema) := entry in
  let value := param_value parameters paramName in
  let newErrors :=
    if is_blank value then
      match default_value schema with
      | None => <[param_key paramName := Required paramName]> newErrors
      | Some _ => newErrors
      end
    else newErrors in
  if negb (is_blank value) then
    if bool_decide (sch_type schema = "number") && isNaN (Number value) then
      <[param_key paramName := MustBeNumber paramName]> newErrors
    else if bool_decide (sch_type schema = "integer")
            && negb (Number_isInteger (Number value)) then
      <[param_key paramName := MustBeInteger paramName]> newErrors
    else
      let check_maximum :=
        match maximum schema with
        | Some hi =>
            if js_gt (Number value) hi then
              <[param_key paramName := AtMost paramName hi]> newErrors
            else newErrors
        | None => newErrors
        end in
      match minimum schema with
      | Some lo =>
          if js_lt (Number value) lo then
            <[param_key paramName := AtLeast paramName lo]> newErrors
          else check_maximum
      | None => check_maximum
      end
  else newErrors.

(** The errors of the basic fields, in the order [validateForm] checks
    them. *)
Definition basicErrors (mode : ModalMode) (formData : FormData) : gmap string ErrorText :=
  let newErrors : gmap string ErrorText := ∅ in
  let newErrors :=
    if bool_decide (trim (id formData) = "") && bool_decide (mode = create) then
      <["id" := Text "Bot ID is required"]> newErrors
    else if negb (bool_decide (id formData = "")) && negb (id_regex_test (id formData)) then
      <["id" := Text "Bot ID can only contain letters, numbers, hyphens, and underscores"]>
        newErrors
    else newErrors in
  let newErrors :=
    if bool_decide (strategy formData = "") then
      <["strategy" := Text "Strategy is required"]> newErrors
    else newErrors in
  let newErrors :=
    if bool_decide (symbol formData = "") then
      <["symbol" := Text "Trading symbol is required"]> newErrors
    else newErrors in
  if js_le (initial_balance formData) 0 then
    <["initial_balance" := Text "Initial balance must be greater than 0"]> newErrors
  else newErrors.

(** The errors collected by [validateForm]: the basic fields, then the
    parameters of the selected strategy's schema. *)
Definition formErrors (mode : ModalMode) (selectedStrategy : option StrategyInfo)
    (formData : FormData) : gmap string ErrorText :=
  match selectedStrategy with
  | Some strategyInfo =>
      foldl (validateParameter (parameters formData)) (basicErrors mode formData)
            (parameter_schema strategyInfo)
  | None => basicErrors mode formData
  end.

(** [validateForm()]: [Object.keys(newErrors).length === 0]. *)
Definition validateForm (mode : ModalMode) (selectedStrategy : option StrategyInfo)
    (formData : FormData) : bool :=
  bool_decide (size (formErrors mode selectedStrategy formData) = 0%nat).

(** What [handleSubmit] does, in order. *)
Inductive Effect :=
| PreventDefault
| SetErrors (errors : gmap string ErrorText)
| CreateBotRequest (botData : FormData)
| UpdateBotRequest (botId : string) (config : FormData)
| OnClose
| ConsoleError.

Definition is_mutation (e : Effect) : bool :=
  match e with
  | CreateBotRequest _ | UpdateBotRequest _ _ => true
  | _ => false
  end.

(** [handleSubmit(e)]; [mutation_resolves] tells whether the awaited
    [mutateAsync] call is fulfilled. *)
Definition handleSubmit (mode : ModalMode) (botId : string)
    (selectedStrategy : option StrategyInfo) (formData : FormData)
    (mutation_resolves : bool) : list Effect :=
  let errors := SetErrors (formErrors mode selectedStrategy formData) in
  if negb (validateForm mode selectedStrategy formData) then
    [PreventDefault; errors]
  else
    let request :=
      match mode with
      | create => CreateBotRequest formData
      | edit => UpdateBotRequest botId formData
      end in
    [PreventDefault; errors; request;
     if mutation_resolves then OnClose else ConsoleError].

(** A parameter the schema requires (it has no default) is missing. *)
Definition missing_required (info : StrategyInfo) (formData : FormData) : Prop :=
  exists paramName schema,
    (paramName, schema) ∈ parameter_schema info
    /\ default_value schema = None
    /\ is_blank (param_value (parameters formData) paramName) = true.

(** A provided parameter with a numeric value lies outside the bounds of its
    schema. *)
Definition out_of_bounds (info : StrategyInfo) (formData : FormData) : Prop :=
  exists paramName schema x,
    (paramName, schema) ∈ parameter_schema info
    /\ is_blank (param_value (parameters formData) paramName) = false
    /\ Number (param_value (parameters formData) paramName) = Num x
    /\ ((exists lo, minimum schema = Some lo /\ (x < lo)%Q)
        \/ (exists hi, maximum schema = Some hi /\ (hi < x)%Q)).

(** The form states the create mode must refuse. *)
Definition invalid_form (selectedStrategy : option StrategyInfo) (formData : FormData)
    : Prop :=
  id formData = ""
  \/ all_chars id_char (id formData) = false
  \/ strategy formData = ""
  \/ symbol formData = ""
  \/ (exists q, initial_balance formData = Num q /\ (q <= 0)%Q)
  \/ (exists info, selectedStrategy = Some info /\ missing_required info formData)
  \/ (exists info, selectedStrategy = Some info /\ out_of_bounds info formData).
End Form.

End BotModal.

(** ** The fill model of the execution engine

    The Python modules of the engine ([backtest/], [execution_engine/],
    [portfolio_risk/]) are not among the repository files; only their
    READMEs are.  Every definition of this module is modelled from sections
    3 and 4.1 of the specification. Prices, quantities and fees are exact
    rationals; the rounding of a fill is not modelled. *)

Module Engine.

Local Open Scope Q_scope.

Inductive Side := buy | sell.
Inductive OrderType := market | limit.
Inductive TimeInForce := GTC | IOC.
Inductive OrderStatus := new | partially_filled | filled | cancelled | rejected.

(** Modelled from the spec: the data classes of the engine (Bar, Order,
    Fill), missing from the sources, after the data model of section 3. A
    fill carries the symbol and side of its order. *)
Record Bar := mkBar {
  bar_timestamp : Z;
  bar_symbol : string;
  bar_open : Q;
  bar_high : Q;
  bar_low : Q;
  bar_close : Q;
  bar_volume : Q
}.

Record Order := mkOrder {
  order_id : nat;
  ord_symbol : string;
  ord_side : Side;
  ord_type : OrderType;
  ord_quantity : Q;
  ord_limit_price : option Q;
  ord_time_in_force : TimeInForce;
  ord_status : OrderStatus;
  filled_quantity : Q;
  average_fill_price : Q;
  created_at : Z
}.

Record Fill := mkFill {
  fill_order_id : nat;
  fill_symbol : string;
  fill_side : Side;
  fill_price : Q;
  fill_quantity : Q;
  fill_fee : Q;
  fill_timestamp : Z;
  is_partial : bool
}.

Definition Qlt_bool (a b : Q) : bool := negb (Qle_bool b a).

Inductive Slippage := SlippagePercent (rate : Q) | SlippageAbsolute (offset : Q).

(** Modelled from the spec: the configuration of the fill model (missing
    from the sources): slippage, fee rates per symbol, the "same-bar" mode,
    and the per-bar volume-participation cap, [None] when no cap is
    configured. *)
Record FillConfig := mkFillConfig {
  slippage : Slippage;
  maker_fee_rate : string -> Q;
  taker_fee_rate : string -> Q;
  same_bar_mode : bool;
  participation_rate : option Q
}.

(** Modelled from the spec: the fill model's reference price of a market
    order (the fill model is missing from the sources), the bar's open, or
    its close in the "same-bar" mode. *)
Definition reference_price (cfg : FillConfig) (bar : Bar) : Q :=
  if same_bar_mode cfg then bar_close bar else bar_open bar.

(** Modelled from the spec: the fill model's slippage (missing from the
    sources), adverse to the order's side: a buy pays up and a sell receives
    down. *)
Definition slipped_price (cfg : FillConfig) (s : Side) (ref : Q) : Q :=
  match slippage cfg, s with
  | SlippagePercent r, buy => ref * (1 + r)
  | SlippagePercent r, sell => ref * (1 - r)
  | SlippageAbsolute d, buy => ref + d
  | SlippageAbsolute d, sell => ref - d
  end.

(** Modelled from the spec: the fill model's crossing test of a limit order
    (missing from the sources): "a buy limit fills if low <= limit_price; a
    sell limit fills at limit_price if high >= limit_price". *)
Definition limit_crosses (s : Side) (limit_price : Q) (bar : Bar) : bool :=
  match s with
  | buy => Qle_bool (bar_low bar) limit_price
  | sell => Qle_bool limit_price (bar_high bar)
  end.

Definition is_live (o : Order) : bool :=
  match ord_status o with
  | new | partially_filled => true
  | _ => false
  end.

Definition remaining_quantity (o : Order) : Q := ord_quantity o - filled_quantity o.

(** Modelled from the spec: the quantity one bar can fill (the fill model is
    missing from the sources): the whole remaining quantity, "capped at
    volume * participation_rate" when the cap is active. *)
Definition capped_quantity (cfg : FillConfig) (o : Order) (bar : Bar) : Q :=
  match participation_rate cfg with
  | None => remaining_quantity o
  | Some rate => Qmin (remaining_quantity o) (bar_volume bar * rate)
  end.


(** Modelled from the spec: the fill record (missing from the sources), with
    the fee "fee_rate * fill_price * fill_quantity"; it is partial when it
    leaves some of the order unfilled. *)
Definition fill_of (o : Order) (bar : Bar) (price fee_rate qty : Q) : Fill :=
  mkFill (order_id o) (ord_symbol o) (ord_side o) price qty
         (fee_rate * price * qty) (bar_timestamp bar)
         (Qlt_bool qty (remaining_quantity o)).

(** Modelled from the spec: the status of an order after a fill (missing
    from the sources): filled, or with a partial fill "the remainder stays
    partially_filled (GTC) or is cancelled (IOC)". *)
Definition status_after (o : Order) (f : Fill) : OrderStatus :=
  if is_partial f then
    match ord_time_in_force o with
    | GTC => partially_filled
    | IOC => cancelled
    end
  else filled.

Definition filled_order (o : Order) (f : Fill) : Order :=
  let total := filled_quantity o + fill_quantity f in
  mkOrder (order_id o) (ord_symbol o) (ord_side o) (ord_type o) (ord_quantity o)
          (ord_limit_price o) (ord_time_in_force o) (status_after o f) total
          ((filled_quantity o * average_fill_price o
            + fill_quantity f * fill_price f) / total)
          (created_at o).

Definition with_status (o : Order) (st : OrderStatus) : Order :=
  mkOrder (order_id o) (ord_symbol o) (ord_side o) (ord_type o) (ord_quantity o)
          (ord_limit_price o) (ord_time_in_force o) st (filled_quantity o)
          (average_fill_price o) (created_at o).

(** An order that gets nothing from the bar: an IOC order is cancelled, a
    GTC order stays as it is for the next bar. *)
Definition unfilled_order (o : Order) : Order :=
  match ord_time_in_force o with
  | IOC => with_status o cancelled
  | GTC => o
  end.

(** Modelled from the spec: one execution at a given price and fee rate (the
    fill model is missing from the sources). A fill has a quantity above 0,
    so a bar that can fill nothing produces no fill. *)
Definition execute (cfg : FillConfig) (o : Order) (bar : Bar) (price fee_rate : Q)
    : list Fill * Order :=
  let qty := capped_quantity cfg o bar in
  if Qlt_bool 0 qty then
    let f := fill_of o bar price fee_rate qty in
    ([f], filled_order o f)
  else ([], unfilled_order o).

(** Modelled from the spec: the execution engine's fill model, missing from
    the sources, after section 4.1. A market order fills at the slipped
    reference price with the taker fee. A limit order fills at its limit
    price with the maker fee when the bar crosses the limit; otherwise an
    IOC order is cancelled and a GTC order stays live. The quantity of a
    fill is capped by the volume-participation cap. An order that is no
    longer live produces nothing. *)
Definition fill_model (cfg : FillConfig) (o : Order) (bar : Bar) : list Fill * Order :=
  if negb (is_live o) then ([], o)
  else
    match ord_type o with
    | market =>
        execute cfg o bar (slipped_price cfg (ord_side o) (reference_price cfg bar))
                (taker_fee_rate cfg (ord_symbol o))
    | limit =>
        match ord_limit_price o with
        | Some limit_price =>
            if limit_crosses (ord_side o) limit_price bar then
              execute cfg o bar limit_price (maker_fee_rate cfg (ord_symbol o))
            else ([], unfilled_order o)
        | None => ([], with_status o rejected)
        end
    end.

End Engine.

(** ** More of the trade-history component

    Position direction, the pagination controls and what the component
    renders. *)

Module POSITION_DIRECTION.
Definition LONG : string := "long".
Definition SHORT : string := "short".
Definition UNKNOWN : string := "unknown".
End POSITION_DIRECTION.

(** [Array.prototype.findIndex]; [None] stands for [-1]. *)
Fixpoint js_findIndex {A : Type} (p : A -> bool) (l : list A) : option nat :=
  match l with
  | [] => None
  | x :: r => if p x then Some 0%nat else S <$> js_findIndex p r
  end.

Module TradesHistoryView.
Import TradesHistory.

(** The string a position carries in its [side] field. *)
Definition side_name (s : PositionSide) : string :=
  match s with
  | long => POSITION_DIRECTION.LONG
  | short => POSITION_DIRECTION.SHORT
  end.

Definition is_opening_of (closingTrade trade : Trade) : bool :=
  bool_decide (symbol trade = symbol closingTrade)
  && bool_decide (type trade = Some TRADE_TYPE.OPEN).

(** The loop [for (let i = closingIndex - 1; i >= 0; i--)] of
    [findOpeningTrade], entered with [n = closingIndex]. Every index below
    [closingIndex] is inside the array. *)
Fixpoint scan_back (allTrades : list Trade) (closingTrade : Trade) (n : nat)
    : option Trade :=
  match n with
  | O => None
  | S i =>
      match allTrades !! i with
      | Some trade =>
          if is_opening_of closingTrade trade then Some trade
          else scan_back allTrades closingTrade i
      | None => scan_back allTrades closingTrade i
      end
  end.

(** [findOpeningTrade(closingTrade, allTrades)]; [None] is [null]. *)
Definition findOpeningTrade (closingTrade : Trade) (allTrades : list Trade)
    : option Trade :=
  match js_findIndex (fun t => bool_decide (timestamp t = timestamp closingTrade))
                     allTrades with
  | None => None
  | Some closingIndex => scan_back allTrades closingTrade closingIndex
  end.

Definition direction_of_side (trade_side : string) : string :=
  if bool_decide (trade_side = TRADE_SIDE.BUY) then POSITION_DIRECTION.LONG
  else POSITION_DIRECTION.SHORT.

(** [getPositionDirection(trade, allTrades)]. *)
Definition getPositionDirection (botStatus : option BotStatus) (trade : Trade)
    (allTrades : list Trade) : string :=
  let fallback :=
    match botStatus with
    | Some bs =>
        match js_find (same_symbol trade) (bs_positions bs) with
        | Some position => side_name (pos_side position)
        | None => direction_of_side (side trade)
        end
    | None => direction_of_side (side trade)
    end in
  if bool_decide (type trade = Some TRADE_TYPE.OPEN) then direction_of_side (side trade)
  else if bool_decide (type trade = Some TRADE_TYPE.CLOSE) then
    match findOpeningTrade trade allTrades with
    | Some openingTrade => direction_of_side (side openingTrade)
    | None => fallback
    end
  else fallback.

(** The text "Showing [from] to [to] of [n] trades" under the list. *)
Definition showingFrom (currentPage : Z) : Z :=
  (currentPage - 1) * TRADES_PER_PAGE + 1.

Definition showingTo (trades : option (list Trade)) (currentPage : Z) : Z :=
  Z.min (currentPage * TRADES_PER_PAGE)
        (match trades with Some ts => Z.of_nat (length ts) | None => 0 end).

(** The number shown on button [i] of the page-number row. *)
Definition pageNum (totalPages currentPage i : Z) : Z :=
  if totalPages <=? 5 then i + 1
  else if currentPage <=? 3 then i + 1
  else if totalPages - 2 <=? currentPage then totalPages - 4 + i
  else currentPage - 2 + i.

(** [Array.from({ length: Math.min(totalPages, 5) }, (_, i) => pageNum)]. *)
Definition pageButtons (totalPages currentPage : Z) : list Z :=
  map (fun i => pageNum totalPages currentPage (Z.of_nat i))
      (seq 0 (Z.to_nat (Z.min totalPages 5))).

(** The pages the controls can reach, first to last. *)
Definition allPages (trades : option (list Trade)) : list Z :=
  map (fun i => Z.of_nat i + 1) (seq 0 (Z.to_nat (totalPages trades))).

(** The state of a query hook: the data of the last fulfilled request, the
    error of a rejected one. *)
Record QueryResult (A : Type) := mkQuery {
  q_data : option A;
  q_isLoading : bool;
  q_error : option Api.AxiosError
}.
Arguments mkQuery {A} _ _ _.
Arguments q_data {A} _.
Arguments q_isLoading {A} _.
Arguments q_error {A} _.

(** The hook once its request has settled, with nothing cached before. *)
Definition settled_query {A : Type} (s : Api.Settled A) : QueryResult A :=
  match s with
  | Api.Fulfilled value => mkQuery (Some value) false None
  | Api.Thrown error => mkQuery None false (Some error)
  end.

(** What the component returns. *)
Inductive View :=
| LoadingSkeleton
| ErrorLoadingTrades
| NoTradesYet
| TradeRows (rows : list (Trade * PnLResult)).

Definition render (Date_getTime : string -> Z) (tradesQuery : QueryResult (list Trade))
    (botStatus : option BotStatus) (currentPage : Z) : View :=
  if q_isLoading tradesQuery then LoadingSkeleton
  else if bool_decide (is_Some (q_error tradesQuery)) then ErrorLoadingTrades
  else
    match q_data tradesQuery with
    | None => NoTradesYet
    | Some [] => NoTradesYet
    | Some trades => TradeRows (pageRows Date_getTime (Some trades) botStatus currentPage)
    end.

End TradesHistoryView.

(** ** The risk panel ([RiskPanel]) *)

Module RiskPanel.

Record RiskEvaluation := mkRiskEvaluation {
  rule_name : string;
  is_violated : bool;
  details : gmap string JsValue
}.

Record BotRisk := mkBotRisk {
  evaluations : list RiskEvaluation;
  kill_switch_activated : bool
}.

(** The three figures of the risk summary. *)
Definition totalRules (risk : BotRisk) : nat := length (evaluations risk).

Definition passingRules (risk : BotRisk) : nat :=
  length (List.filter (fun e => negb (is_violated e)) (evaluations risk)).

Definition violatedRules (risk : BotRisk) : nat :=
  length (List.filter (fun e => is_violated e) (evaluations risk)).

End RiskPanel.

(** ** More of the bot form

    The defaults the form is prefilled with, the conversion of what is typed
    into a parameter input, and the error each check of [validateForm]
    records. *)

Module BotModalState.
Import BotModal.

(** [Object.fromEntries]: a later entry overwrites an earlier one of the
    same key. *)
Definition js_fromEntries {V : Type} (entries : list (string * V)) : gmap string V :=
  foldl (fun m entry => <[entry.1 := entry.2]> m) ∅ entries.

(** [schema?.default !== undefined ? schema.default : '']. *)
Definition default_or_blank (schema : StrategyParameterSchema) : JsValue :=
  match default_value schema with
  | None | Some JsUndefined => JsString ""
  | Some v => v
  end.

(** The [defaults] object built when a strategy is selected in create mode
    and when the preset selection is cleared. *)
Definition schemaDefaults (info : StrategyInfo) : gmap string JsValue :=
  js_fromEntries (map (fun entry => (entry.1, default_or_blank entry.2))
                      (parameter_schema info)).

(** [handleParameterChange(paramName, value)] on the form data. *)
Definition handleParameterChange (paramName : string) (value : JsValue) (prev : FormData)
    : FormData :=
  mkForm (id prev) (strategy prev) (symbol prev) (mode prev) (initial_balance prev)
         (<[paramName := value]> (parameters prev)) (configuration prev).

(** [n || 0] for a number: [NaN] and zero are falsy. *)
Definition or_zero (n : JsNumber) : JsNumber :=
  match n with
  | NaN => Num 0
  | Num q => if Qeq_bool q 0 then Num 0 else Num q
  end.

Section Inputs.
(** [parseInt] and [parseFloat] on the text of an input. *)
Variable parseInt : string -> JsNumber.
Variable parseFloat : string -> JsNumber.

(** The type conversion in the [onChange] handler of a parameter input;
    [target_value] is [e.target.value], the two booleans tell whether the
    target is a checkbox and whether it is checked. *)
Definition convertInput (schema : StrategyParameterSchema) (target_value : string)
    (is_checkbox checked : bool) : JsValue :=
  if bool_decide (sch_type schema = "number") || bool_decide (sch_type schema = "integer")
  then
    JsNum (if bool_decide (sch_type schema = "integer")
           then or_zero (parseInt target_value)
           else or_zero (parseFloat target_value))
  else if bool_decide (sch_type schema = "boolean") then
    JsBoolean (if is_checkbox then checked else bool_decide (target_value = "true"))
  else JsString target_value.
End Inputs.



Section Checks.
Variable Number_of_string : string -> JsNumber.

(** The error [validateForm] leaves under [parameters.<name>] for one schema
    entry: the first check that fails, in the order required, number,
    integer, minimum, maximum. *)
Definition param_error (parameters : gmap string JsValue)
    (entry : string * StrategyParameterSchema) : option ErrorText :=
  let '(paramName, schema) := entry in
  let value := param_value parameters paramName in
  if is_blank value then
    match default_value schema with
    | None => Some (Required paramName)
    | Some _ => None
    end
  else if bool_decide (sch_type schema = "number")
          && isNaN (Number Number_of_string value) then
    Some (MustBeNumber paramName)
  else if bool_decide (sch_type schema = "integer")
          && negb (Number_isInteger (Number Number_of_string value)) then
    Some (MustBeInteger paramName)
  else
    match minimum schema, maximum schema with
    | Some lo, _ =>
        if js_lt (Number Number_of_string value) lo then Some (AtLeast paramName lo)
        else
          match maximum schema with
          | Some hi =>
              if js_gt (Number Number_of_string value) hi
              then Some (AtMost paramName hi) else None
          | None => None
          end
    | None, Some hi =>
        if js_gt (Number Number_of_string value) hi
        then Some (AtMost paramName hi) else None
    | None, None => None
    end.

(** The error left under [id]. *)
Definition id_error (mode : ModalMode) (formData : FormData) : option ErrorText :=
  if bool_decide (trim (id formData) = "") && bool_decide (mode = create) then
    Some (Text "Bot ID is required")
  else if negb (bool_decide (id formData = "")) && negb (id_regex_test (id formData)) then
    Some (Text "Bot ID can only contain letters, numbers, hyphens, and underscores")
  else None.

(** The form has nothing to report: every basic field and every schema
    parameter passes its checks. *)
Definition all_checks_pass (mode : ModalMode) (selectedStrategy : option StrategyInfo)
    (formData : FormData) : Prop :=
  id_error mode formData = None
  /\ strategy formData <> ""
  /\ symbol formData <> ""
  /\ js_le (initial_balance formData) 0 = false
  /\ forall info, selectedStrategy = Some info ->
       Forall (fun entry => param_error (parameters formData) entry = None)
              (parameter_schema info).
End Checks.

End BotModalState.

(** ** Example data *)

Module Examples.

Local Open Scope Q_scope.

(** A long position of 2 BTC bought at 100 and marked at 120. *)
Definition btc_long : Position := mkPosition "BTCUSDT" 2 120 long.
Definition btc_buy : Trade :=
  mkTrade "2024-01-01T00:00:00Z" "BTCUSDT" "buy" 100 2 (Some "open") None.
Definition btc_status : BotStatus := mkBotStatus 0 [btc_long] 10000 10040.

(** A short of 1 ETH opened at 100 and covered at 90, with no position left;
    the backend sent no [pnl] with the trades. *)
Definition short_open : Trade :=
  mkTrade "2024-01-01T00:00:00Z" "ETHUSDT" "sell" 100 1 (Some "open") None.
Definition short_cover : Trade :=
  mkTrade "2024-01-02T00:00:00Z" "ETHUSDT" "buy" 90 1 (Some "close") None.
Definition flat_status : BotStatus := mkBotStatus 10 [] 10010 10010.

(** A long position of 1 BTC marked at 120: what is left of [btc_buy] (2 at
    100) after 1 was sold at 110; the sale came without a [type]. *)
Definition btc_long_one : Position := mkPosition "BTCUSDT" 1 120 long.
Definition btc_sell_one : Trade :=
  mkTrade "2024-01-02T00:00:00Z" "BTCUSDT" "sell" 110 1 None None.
Definition reduced_status : BotStatus := mkBotStatus 30 [btc_long_one] 9910 10030.
Definition reduced_trades : list Trade := [btc_buy; btc_sell_one].

(** Epoch milliseconds of the timestamps used in the examples. *)
Definition example_getTime (ts : string) : Z :=
  if bool_decide (ts = "2024-01-01T00:00:00Z") then 1704067200000%Z
  else if bool_decide (ts = "2024-01-02T00:00:00Z") then 1704153600000%Z
  else if bool_decide (ts = "2024-01-03T00:00:00Z") then 1704240000000%Z
  else 0%Z.

(** A long of 2 BTC bought at 100 and sold at 110, then a later trade. *)
Definition btc_sell : Trade :=
  mkTrade "2024-01-02T00:00:00Z" "BTCUSDT" "sell" 110 2 (Some "close") None.

(** Seven trades of one symbol, one per timestamp class, oldest first. *)
Definition later_trade : Trade :=
  mkTrade "2024-01-03T00:00:00Z" "BTCUSDT" "buy" 105 1 None None.
Definition seven_trades : list Trade :=
  [btc_buy; btc_sell; later_trade; btc_buy; btc_sell; later_trade; btc_buy].



(** A backend that knows one bot and answers 404 for the trades of any
    other, and a backend that is down. *)
Definition one_bot_backend (url : string) : Api.Settled (Api.AxiosResponse (list Trade)) :=
  if bool_decide (url = "/bots/bot_1/trades")
  then Api.Fulfilled (Api.mkResponse [btc_buy; btc_sell] 200%Z)
  else Api.Thrown (Api.mkError "Request failed with status code 404"
                               (Some (Api.mkResponse "Not Found" 404%Z))).


(** A strategy with one bounded integer parameter, and a create form that
    sets it above its maximum. *)
Definition sma_strategy : BotModal.StrategyInfo :=
  BotModal.mkStrategy "SmaCrossover"
    [("window"%string,
      BotModal.mkSchema "integer" (Some 2) (Some 200) (Some (JsNum (Num 20)))
                        "look-back window")].

Definition wide_window_form : BotModal.FormData :=
  BotModal.mkForm "my_bot_001" "SmaCrossover" "BTCUSDT" "paper" (Num 10000)
                  {[ "window"%string := JsNum (Num 500) ]} "".

(** A create form whose id is one no-break space (U+00A0, the bytes 194
    and 160 in UTF-8). *)
Definition no_break_space : string :=
  String (Ascii.ascii_of_N 194) (String (Ascii.ascii_of_N 160) "").
Definition blank_id_form : BotModal.FormData :=
  BotModal.mkForm no_break_space "SmaCrossover" "BTCUSDT" "paper" (Num 10000) ∅ "".

(** No string is read as a number in the examples. *)
Definition no_numeric_strings (s : string) : JsNumber := NaN.

(** The limit order of the specification's example: buy at 100, on a bar
    that crosses the limit and on one that stays above it; no
    volume-participation cap is configured. *)
Definition plain_fills : Engine.FillConfig :=
  Engine.mkFillConfig (Engine.SlippagePercent (1 # 1000))
                      (fun _ => 2 # 10000) (fun _ => 5 # 10000) false None.

Definition limit_buy_100 : Engine.Order :=
  Engine.mkOrder 0 "BTCUSDT" Engine.buy Engine.limit 1 (Some 100) Engine.GTC
                 Engine.new 0 0 0%Z.

Definition crossing_bar : Engine.Bar := Engine.mkBar 60000 "BTCUSDT" 102 105 95 98 10.
Definition higher_bar : Engine.Bar := Engine.mkBar 120000 "BTCUSDT" 104 110 101 108 10.

(** The same fill model with a participation cap of a tenth of the bar's
    volume, a bar of the same prices on which 4 units traded, and one on
    which nothing traded. *)
Definition capped_fills : Engine.FillConfig :=
  Engine.mkFillConfig (Engine.SlippagePercent (1 # 1000))
                      (fun _ => 2 # 10000) (fun _ => 5 # 10000) false (Some (1 # 10)).

Definition thin_bar : Engine.Bar := Engine.mkBar 60000 "BTCUSDT" 102 105 95 98 4.

(** A round trip in two symbols, oldest first: BTC is bought and sold, ETH is
    sold short in between. *)
Definition eth_short : Trade :=
  mkTrade "2024-01-01T12:00:00Z" "ETHUSDT" "sell" 100 1 (Some "open") None.
Definition btc_close : Trade :=
  mkTrade "2024-01-03T00:00:00Z" "BTCUSDT" "sell" 110 2 (Some "close") (Some 20).
Definition mixed_trades : list Trade := [btc_buy; eth_short; btc_close].

(** Three risk rules, one of them violated. *)
Definition sample_risk : RiskPanel.BotRisk :=
  RiskPanel.mkBotRisk
    [ RiskPanel.mkRiskEvaluation "max_drawdown" true ∅;
      RiskPanel.mkRiskEvaluation "daily_loss_limit" false ∅;
      RiskPanel.mkRiskEvaluation "leverage_limit" false ∅ ]
    true.

(** A backend whose trades endpoint fails with status 500. *)
Definition failing_backend (url : string) : Api.Settled (Api.AxiosResponse (list Trade)) :=
  Api.Thrown (Api.mkError "Request failed with status code 500"
                          (Some (Api.mkResponse "Internal Server Error" 500%Z))).

(** A form that passes every check of the SMA strategy, and the reading of
    the one text a user types in the examples. *)
Definition good_form : BotModal.FormData :=
  BotModal.mkForm "my_bot_001" "SmaCrossover" "BTCUSDT" "paper" (Num 10000)
                  {[ "window"%string := JsNum (Num 50) ]} "".

Definition parse_25 (s : string) : JsNumber :=
  if bool_decide (s = "25") then Num 25 else NaN.

(** A schema with a parameter that has no default. *)
Definition pair_strategy : BotModal.StrategyInfo :=
  BotModal.mkStrategy "StatArb"
    [("window"%string,
      BotModal.mkSchema "integer" (Some 2) (Some 200) (Some (JsNum (Num 20)))
                        "look-back window");
     ("hedge_symbol"%string,
      BotModal.mkSchema "string" None None None "second leg")].

(** The schema of the bounded integer parameter on its own, with and without
    a default. *)
Definition window_schema : BotModal.StrategyParameterSchema :=
  BotModal.mkSchema "integer" (Some 2) (Some 200) (Some (JsNum (Num 20)))
                    "look-back window".
Definition window_schema_no_default : BotModal.StrategyParameterSchema :=
  BotModal.mkSchema "integer" (Some 2) (Some 200) None "look-back window".

End Examples.

(** * Properties *)

(** ** Per-trade PnL of the trade history *)

Module TradesHistoryFacts.
Import TradesHistory Examples.

Local Open Scope Q_scope.

Lemma calculateTradePnL_live trades botStatus trade index position :
  explicit_pnl trade = None ->
  live_position botStatus trade = Some position ->
  calculateTradePnL (Some trades) botStatus trade index
  = mkPnL (Some (unrealizedPnL position trade)) true.
Proof.
  intros Hexp Hlive. unfold calculateTradePnL. now rewrite Hexp, Hlive.
Qed.

Lemma live_position_open bs trade position :
  getPositionStatus (Some bs) trade = POSITION_STATUS.OPEN ->
  js_find (same_symbol trade) (bs_positions bs) = Some position ->
  live_position (Some bs) trade = Some position.
Proof.
  intros Hst Hfind. unfold live_position.
  rewrite bool_decide_eq_true_2 by exact Hst. exact Hfind.
Qed.

Lemma unrealizedPnL_buy position trade :
  side trade = TRADE_SIDE.BUY ->
  unrealizedPnL position trade = (pos_price position - price trade) * quantity trade.
Proof.
  intros Hside. unfold unrealizedPnL. cbv zeta.
  now rewrite bool_decide_eq_true_2 by exact Hside.
Qed.

Lemma unrealizedPnL_sell position trade :
  side trade = TRADE_SIDE.SELL ->
  unrealizedPnL position trade = (price trade - pos_price position) * quantity trade.
Proof.
  intros Hside. unfold unrealizedPnL. cbv zeta.
  rewrite bool_decide_eq_false_2.
  - now rewrite bool_decide_eq_true_2 by exact Hside.
  - rewrite Hside. discriminate.
Qed.

(** C2. The live figure is one per trade row, not one per position. For a
    trade shown as an open position, with an open position of its symbol in
    the bot status, a live (unrealized) PnL is displayed exactly when the
    trade carries no explicit non-zero PnL of its own. With [m] the
    position's current price, [e] the price of the trade row and [q] the
    quantity of the trade row it is [(m - e) * q] when the row is a buy and
    [(e - m) * q] when the row is a sell, which is the specification's
    [(mark_price - entry_price) * quantity * direction_sign] with the sign
    read off the side of the row; the quantity and the side of the position
    are not used. *)
Theorem unrealized_pnl_display trades bs trade index position :
  getPositionStatus (Some bs) trade = POSITION_STATUS.OPEN ->
  js_find (same_symbol trade) (bs_positions bs) = Some position ->
  let m := pos_price position in
  let e := price trade in
  let q := quantity trade in
  let shown := calculateTradePnL (Some trades) (Some bs) trade index in
  (isLive shown = true <-> explicit_pnl trade = None)
  /\ (isLive shown = true ->
      (side trade = TRADE_SIDE.BUY -> res_pnl shown = Some ((m - e) * q))
      /\ (side trade = TRADE_SIDE.SELL -> res_pnl shown = Some ((e - m) * q))
      /\ (side trade = TRADE_SIDE.BUY \/ side trade = TRADE_SIDE.SELL ->
          exists v, res_pnl shown = Some v
                    /\ v == unrealized_pnl_spec m e q (direction_sign (side trade)))).
Proof.
  intros Hst Hfind m e q shown.
  pose proof (live_position_open bs trade position Hst Hfind) as Hlive.
  destruct (explicit_pnl trade) as [p |] eqn:Hexp.
  - assert (Hshown : shown = mkPnL (Some p) false).
    { subst shown. unfold calculateTradePnL. now rewrite Hexp. }
    rewrite Hshown. cbn [isLive]. split; [split; discriminate | discriminate].
  - assert (Hshown : shown = mkPnL (Some (unrealizedPnL position trade)) true).
    { now apply calculateTradePnL_live. }
    rewrite Hshown. cbn [isLive res_pnl].
    split; [tauto |]. intros _.
    split; [intros Hb; now rewrite unrealizedPnL_buy |].
    split; [intros Hs; now rewrite unrealizedPnL_sell |].
    intros [Hb | Hs].
    + exists ((m - e) * q). split; [now rewrite unrealizedPnL_buy |].
      unfold unrealized_pnl_spec, direction_sign.
      rewrite bool_decide_eq_true_2 by exact Hb. ring.
    + exists ((e - m) * q). split; [now rewrite unrealizedPnL_sell |].
      unfold unrealized_pnl_spec, direction_sign.
      rewrite bool_decide_eq_false_2 by (rewrite Hs; discriminate). ring.
Qed.

Lemma unrealized_pnl_display_witness :
  res_pnl (calculateTradePnL (Some [btc_buy]) (Some btc_status) btc_buy 0)
  = Some ((120 - 100) * 2).
Proof.
  refine (proj1 (proj2 (unrealized_pnl_display [btc_buy] btc_status btc_buy 0%nat
                          btc_long _ _) _) _); reflexivity.
Defined.

Lemma pairPnL_Some trades trade index v :
  pairPnL trades trade index = Some v <->
  side trade = TRADE_SIDE.SELL /\ (0 < index)%nat
  /\ exists prevTrade,
       trades !! (index - 1)%nat = Some prevTrade
       /\ side prevTrade = TRADE_SIDE.BUY
       /\ symbol prevTrade = symbol trade
       /\ v = (price trade - price prevTrade)
              * Qmin (quantity trade) (quantity prevTrade).
Proof.
  unfold pairPnL. split.
  - destruct (bool_decide (side trade = TRADE_SIDE.SELL)) eqn:Hs; [| discriminate].
    destruct (bool_decide (0 < index)%nat) eqn:Hi; [| discriminate].
    cbn [andb].
    destruct (trades !! (index - 1)%nat) as [prevTrade |] eqn:Hprev; [| discriminate].
    destruct (bool_decide (side prevTrade = TRADE_SIDE.BUY)) eqn:Hb; [| discriminate].
    destruct (bool_decide (symbol prevTrade = symbol trade)) eqn:Hsym; [| discriminate].
    cbn [andb]. intros [= <-].
    apply bool_decide_eq_true_1 in Hs, Hi, Hb, Hsym.
    split; [exact Hs |]. split; [exact Hi |].
    exists prevTrade. auto.
  - intros (Hs & Hi & prevTrade & Hprev & Hb & Hsym & ->).
    rewrite (bool_decide_eq_true_2 _ Hs), (bool_decide_eq_true_2 _ Hi), Hprev.
    now rewrite (bool_decide_eq_true_2 _ Hb), (bool_decide_eq_true_2 _ Hsym).
Qed.

(** C3, counterexample. A short opened by a sell at 100 and covered by a buy
    at 90: the formula gives the closing buy a realized PnL of 10, the page
    shows no PnL for it (nor for the opening sell). *)
Lemma short_cover_shows_no_pnl :
  map (fun row => (side row.1, res_pnl row.2))
      (pageRows example_getTime (Some [short_open; short_cover]) (Some flat_status) 1)
  = [("buy"%string, None); ("sell"%string, None)]
  /\ realized_pnl_spec (price short_cover) (price short_open) (quantity short_cover)
                       (direction_sign (side short_open)) == 10.
Proof.
  split; reflexivity.
Qed.

(** C3, amended. The trade history books no realized PnL of its own for a
    closing trade in general. It shows the explicit non-zero [pnl] of a trade
    unchanged; otherwise, for a trade without a live position, it shows a
    realized PnL exactly when the trade is a sell at an index above 0 whose
    predecessor [trades[index - 1]] is a buy of the same symbol, and then it
    is the formula with the predecessor's price as entry price, the smaller of
    the two quantities as closed quantity and sign [+1]. *)
Theorem realized_pnl_display trades botStatus trade index :
  let shown := calculateTradePnL (Some trades) botStatus trade index in
  (forall p, explicit_pnl trade = Some p -> shown = mkPnL (Some p) false)
  /\ (explicit_pnl trade = None -> live_position botStatus trade = None ->
      isLive shown = false
      /\ forall v, res_pnl shown = Some v <->
           side trade = TRADE_SIDE.SELL /\ (0 < index)%nat
           /\ exists prevTrade,
                trades !! (index - 1)%nat = Some prevTrade
                /\ side prevTrade = TRADE_SIDE.BUY
                /\ symbol prevTrade = symbol trade
                /\ v = (price trade - price prevTrade)
                       * Qmin (quantity trade) (quantity prevTrade)
                /\ v == realized_pnl_spec (price trade) (price prevTrade)
                          (Qmin (quantity trade) (quantity prevTrade)) 1).
Proof.
  intros shown. subst shown. unfold calculateTradePnL. split.
  - intros p Hexp. now rewrite Hexp.
  - intros Hexp Hlive. rewrite Hexp, Hlive. cbn [isLive res_pnl].
    split; [reflexivity |]. intros v. rewrite pairPnL_Some. split.
    + intros (Hs & Hi & prevTrade & Hprev & Hb & Hsym & ->).
      split; [exact Hs |]. split; [exact Hi |]. exists prevTrade.
      repeat (split; [assumption || reflexivity |]).
      unfold realized_pnl_spec. ring.
    + intros (Hs & Hi & prevTrade & Hprev & Hb & Hsym & Hv & _).
      split; [exact Hs |]. split; [exact Hi |]. exists prevTrade. auto.
Qed.

Lemma realized_pnl_display_witness :
  res_pnl (calculateTradePnL (Some [btc_buy; btc_sell]) (Some flat_status) btc_sell 1)
  = Some ((110 - 100) * Qmin 2 2).
Proof.
  apply (proj2 (proj2 (realized_pnl_display [btc_buy; btc_sell] (Some flat_status)
                         btc_sell 1%nat) eq_refl eq_refl)).
  split; [reflexivity |]. split; [apply Nat.lt_0_1 |].
  exists btc_buy. repeat (split; [reflexivity |]). reflexivity.
Defined.

(** A long position of 1 marked at 120, entered at 100, has an unrealized PnL
    of 20. The page shows no such figure: the row of the buy of 2 at 100
    shows a live 40, and the row of the sale of 1 at 110, under the long
    badge of the position, shows a live -10 from the formula of a short. *)
Lemma long_position_rows_show_other_pnl :
  pageRows example_getTime (Some reduced_trades) (Some reduced_status) 1
  = [ (btc_sell_one, mkPnL (Some ((110 - 120) * 1)) true);
      (btc_buy, mkPnL (Some ((120 - 100) * 2)) true) ]
  /\ TradesHistoryView.getPositionDirection (Some reduced_status) btc_sell_one
       reduced_trades = POSITION_DIRECTION.LONG
  /\ TradesHistoryView.getPositionDirection (Some reduced_status) btc_buy
       reduced_trades = POSITION_DIRECTION.LONG
  /\ bs_positions reduced_status = [mkPosition "BTCUSDT" 1 120 long]
  /\ unrealized_pnl_spec 120 100 1 1 == 20
  /\ (110 - 120) * 1 == -10
  /\ (120 - 100) * 2 == 40.
Proof. repeat split. Qed.

End TradesHistoryFacts.

(** ** Sorting and slicing *)

Section JsArrayFacts.
Context {A : Type}.
Implicit Types (l : list A) (cmp : A -> A -> Z).

Lemma js_sort_insert_perm cmp x l : js_sort_insert cmp x l ≡ₚ x :: l.
Proof.
  induction l as [| y r IH]; cbn [js_sort_insert]; [reflexivity |].
  destruct (cmp x y <=? 0); [reflexivity |].
  rewrite IH. apply perm_swap.
Qed.

Lemma js_sort_perm cmp l : js_sort cmp l ≡ₚ l.
Proof.
  unfold js_sort. induction l as [| x r IH]; cbn [foldr]; [reflexivity |].
  rewrite js_sort_insert_perm. now rewrite IH.
Qed.

Section Order.
Variable cmp : A -> A -> Z.
Variable R : A -> A -> Prop.
Hypothesis R_cmp : forall a b, cmp a b <= 0 -> R a b.
Hypothesis R_total : forall a b, 0 < cmp a b -> R b a.
Hypothesis R_trans : forall a b c, R a b -> R b c -> R a c.

Lemma js_sort_insert_sorted x l :
  StronglySorted R l -> StronglySorted R (js_sort_insert cmp x l).
Proof.
  induction 1 as [| y r Hr IH Hy]; cbn [js_sort_insert].
  - constructor; [constructor | constructor].
  - destruct (Z.leb_spec (cmp x y) 0) as [Hle | Hgt].
    + constructor; [now constructor |].
      constructor; [now apply R_cmp |].
      eapply Forall_impl; [exact Hy |]. intros z Hz.
      eapply R_trans; [apply R_cmp, Hle | exact Hz].
    + constructor; [exact IH |].
      rewrite js_sort_insert_perm. constructor; [now apply R_total | exact Hy].
Qed.

Lemma js_sort_sorted l : StronglySorted R (js_sort cmp l).
Proof.
  unfold js_sort. induction l as [| x r IH]; cbn [foldr]; [constructor |].
  now apply js_sort_insert_sorted.
Qed.
End Order.

(** A slice that starts inside or after the array, [k] elements long. *)
Lemma js_slice_window l (start k : Z) :
  0 <= start -> 0 <= k ->
  js_slice l start (start + k) = take (Z.to_nat k) (drop (Z.to_nat start) l).
Proof.
  intros Hs Hk. unfold js_slice. cbv zeta.
  rewrite (proj2 (Z.ltb_ge start 0)) by exact Hs.
  rewrite (proj2 (Z.ltb_ge (start + k) 0)) by lia.
  set (len := Z.of_nat (length l)).
  destruct (Z.le_gt_cases len start) as [Hout | Hin].
  - rewrite (Z.min_r start len) by exact Hout.
    rewrite !drop_ge by (subst len; lia). now rewrite !take_nil.
  - rewrite (Z.min_l start len) by lia.
    destruct (Z.le_gt_cases (start + k) len) as [Hfit | Hover].
    + rewrite (Z.min_l (start + k) len) by exact Hfit. f_equal. lia.
    + rewrite (Z.min_r (start + k) len) by lia.
      rewrite !take_ge; [reflexivity | |]; rewrite length_drop; subst len; lia.
Qed.

Lemma StronglySorted_drop (R : A -> A -> Prop) l n :
  StronglySorted R l -> StronglySorted R (drop n l).
Proof.
  intros H. revert n. induction H as [| x r Hr IH Hx]; intros [| n]; cbn [drop].
  - constructor.
  - constructor.
  - now constructor.
  - apply IH.
Qed.

Lemma StronglySorted_take (R : A -> A -> Prop) l n :
  StronglySorted R l -> StronglySorted R (take n l).
Proof.
  intros H. revert n. induction H as [| x r Hr IH Hx]; intros [| n]; cbn [take].
  - constructor.
  - constructor.
  - constructor.
  - constructor; [apply IH | now apply Forall_take].
Qed.
End JsArrayFacts.

(** ** Pagination of the trade history *)

Module PaginationFacts.
Import TradesHistory Examples.

Section Pages.
Variable Date_getTime : string -> Z.

Lemma sortedTrades_perm trades : sortedTrades Date_getTime trades ≡ₚ trades.
Proof. apply js_sort_perm. Qed.

Lemma sortedTrades_sorted trades :
  StronglySorted (not_older Date_getTime) (sortedTrades Date_getTime trades).
Proof.
  apply js_sort_sorted; unfold newest_first, not_older; intros; lia.
Qed.

(** C7. For a non-empty trade list and a page [p >= 1], the displayed page
    is the slice from [(p-1)*5] up to [p*5] of the trades sorted newest
    first: the sorted list is a rearrangement of the trades in which no trade
    is older than a later one, the page is its window of five, so it has at
    most five trades and is itself ordered newest first. *)
Theorem paginatedTrades_page trades p :
  trades <> [] -> 1 <= p ->
  let sorted := sortedTrades Date_getTime trades in
  let page := paginatedTrades Date_getTime (Some trades) p in
  sorted ≡ₚ trades
  /\ StronglySorted (not_older Date_getTime) sorted
  /\ page = take 5 (drop (Z.to_nat ((p - 1) * 5)) sorted)
  /\ (forall i : nat,
        page !! i = if decide (i < 5)%nat
                    then sorted !! (Z.to_nat ((p - 1) * 5) + i)%nat
                    else None)
  /\ (length page <= 5)%nat
  /\ StronglySorted (not_older Date_getTime) page.
Proof.
  intros _ Hp sorted page.
  assert (Hpage : page = take 5 (drop (Z.to_nat ((p - 1) * 5)) sorted)).
  { subst page sorted. unfold paginatedTrades, TRADES_PER_PAGE. cbv zeta.
    now rewrite js_slice_window by lia. }
  split; [apply sortedTrades_perm |].
  split; [apply sortedTrades_sorted |].
  split; [exact Hpage |].
  split; [| split].
  - intros i. rewrite Hpage. destruct (decide (i < 5)%nat) as [Hi | Hi].
    + rewrite lookup_take_lt by exact Hi. apply lookup_drop.
    + apply lookup_take_ge. lia.
  - rewrite Hpage, length_take. lia.
  - rewrite Hpage. apply StronglySorted_take, StronglySorted_drop, sortedTrades_sorted.
Qed.
End Pages.

Lemma paginatedTrades_page_witness :
  paginatedTrades example_getTime (Some seven_trades) 2
  = take 5 (drop 5 (sortedTrades example_getTime seven_trades)).
Proof.
  refine (proj1 (proj2 (proj2 (paginatedTrades_page example_getTime seven_trades 2 _ _)))).
  - discriminate.
  - lia.
Defined.

Lemma totalPages_ceil ts :
  let T := totalPages (Some ts) in
  5 * (T - 1) < Z.of_nat (length ts) <= 5 * T.
Proof.
  cbv zeta. unfold totalPages, Math_ceil_div, TRADES_PER_PAGE.
  pose proof (Z.div_mod (- Z.of_nat (length ts)) 5 ltac:(lia)) as Hdiv.
  pose proof (Z.mod_pos_bound (- Z.of_nat (length ts)) 5 ltac:(lia)) as Hmod.
  lia.
Qed.









End PaginationFacts.

(** ** Declared shapes *)

Module InterfaceFacts.


End InterfaceFacts.

(** ** The trades request *)

Module ApiFacts.
Import Api Examples.



End ApiFacts.

(** ** Validation of the bot form *)

Module BotModalFacts.
Import BotModal Examples.

Section Form.
Variable Number_of_string : string -> JsNumber.

(** An error map is not empty when it is the given non-empty map or the
    result of recording an error. *)
Ltac recorded := first [assumption | apply insert_non_empty].

Ltac split_if :=
  match goal with
  | |- context [if ?c then _ else _] => destruct c eqn:?
  | |- context [match ?o with Some _ => _ | None => _ end] => destruct o eqn:?
  end.

(** Errors are only ever added. *)
Lemma validateParameter_grows ps errs entry :
  errs <> ∅ -> validateParameter Number_of_string ps errs entry <> ∅.
Proof.
  intros Hne. destruct entry as [paramName schema].
  unfold BotModal.validateParameter. cbv zeta.
  repeat split_if; recorded.
Qed.

Lemma foldl_validateParameter_grows ps entries errs :
  errs <> ∅ -> foldl (validateParameter Number_of_string ps) errs entries <> ∅.
Proof.
  revert errs. induction entries as [| entry rest IH]; intros errs Hne; cbn [foldl].
  - exact Hne.
  - apply IH, validateParameter_grows, Hne.
Qed.

Lemma foldl_validateParameter_offending ps entries entry errs :
  entry ∈ entries ->
  (forall e, validateParameter Number_of_string ps e entry <> ∅) ->
  foldl (validateParameter Number_of_string ps) errs entries <> ∅.
Proof.
  intros Hin Hbad. revert errs.
  induction entries as [| other rest IH]; intros errs.
  - now apply not_elem_of_nil in Hin.
  - cbn [foldl]. apply elem_of_cons in Hin. destruct Hin as [<- | Hin].
    + apply foldl_validateParameter_grows, Hbad.
    + now apply IH.
Qed.

Lemma validateParameter_required ps paramName schema errs :
  default_value schema = None ->
  is_blank (param_value ps paramName) = true ->
  validateParameter Number_of_string ps errs (paramName, schema) <> ∅.
Proof.
  intros Hdef Hblank. unfold BotModal.validateParameter. cbv zeta.
  rewrite Hblank, Hdef. cbn [negb]. recorded.
Qed.

Lemma js_lt_Num x lo : (x < lo)%Q -> js_lt (Num x) lo = true.
Proof.
  intros Hlt. unfold js_lt. apply negb_true_iff.
  destruct (Qle_bool lo x) eqn:Hle; [| reflexivity].
  apply Qle_bool_iff in Hle. exfalso. eapply Qlt_not_le; eassumption.
Qed.

Lemma js_gt_Num x hi : (hi < x)%Q -> js_gt (Num x) hi = true.
Proof.
  intros Hlt. unfold js_gt. apply negb_true_iff.
  destruct (Qle_bool x hi) eqn:Hle; [| reflexivity].
  apply Qle_bool_iff in Hle. exfalso. eapply Qlt_not_le; eassumption.
Qed.

Lemma validateParameter_bounds ps paramName schema x errs :
  is_blank (param_value ps paramName) = false ->
  Number Number_of_string (param_value ps paramName) = Num x ->
  (exists lo, minimum schema = Some lo /\ (x < lo)%Q)
  \/ (exists hi, maximum schema = Some hi /\ (hi < x)%Q) ->
  validateParameter Number_of_string ps errs (paramName, schema) <> ∅.
Proof.
  intros Hblank Hnum Hout. unfold BotModal.validateParameter. cbv zeta.
  rewrite Hblank, Hnum. cbn [negb isNaN]. rewrite andb_false_r.
  destruct (bool_decide (sch_type schema = "integer") && negb (Number_isInteger (Num x)));
    [recorded |].
  destruct Hout as [(lo & Hlo & Hlt) | (hi & Hhi & Hgt)].
  - rewrite Hlo, (js_lt_Num _ _ Hlt). recorded.
  - rewrite Hhi, (js_gt_Num _ _ Hgt).
    destruct (minimum schema) as [lo |]; [destruct (js_lt (Num x) lo) |];
      recorded.
Qed.

(** The basic fields: each of the five defects leaves an error. *)
Lemma basicErrors_invalid formData :
  id formData = "" \/ all_chars id_char (id formData) = false
  \/ strategy formData = "" \/ BotModal.symbol formData = ""
  \/ (exists q, initial_balance formData = Num q /\ (q <= 0)%Q) ->
  basicErrors create formData <> ∅.
Proof.
  intros Hbad. unfold basicErrors. cbv zeta.
  rewrite (bool_decide_eq_true_2 (create = create)) by reflexivity.
  rewrite andb_true_r.
  destruct Hbad as [Hid | [Hchars | [Hstrat | [Hsym | (q & Hbal & Hq)]]]].
  - rewrite Hid. change (trim "") with ""%string.
    rewrite (bool_decide_eq_true_2 (@eq string "" "") eq_refl).
    repeat split_if; recorded.
  - assert (Hid : id formData <> "").
    { intros Heq. rewrite Heq in Hchars. discriminate. }
    unfold id_regex_test. rewrite Hchars, andb_false_r.
    rewrite (bool_decide_eq_false_2 _ Hid). cbn [negb andb].
    repeat split_if; recorded.
  - rewrite (bool_decide_eq_true_2 _ Hstrat).
    repeat split_if; recorded.
  - rewrite (bool_decide_eq_true_2 _ Hsym).
    repeat split_if; recorded.
  - rewrite Hbal. unfold js_le. rewrite (proj2 (Qle_bool_iff q 0) Hq).
    recorded.
Qed.

Lemma formErrors_invalid selectedStrategy formData :
  invalid_form Number_of_string selectedStrategy formData ->
  formErrors Number_of_string create selectedStrategy formData <> ∅.
Proof.
  unfold invalid_form, BotModal.formErrors.
  intros [H | [H | [H | [H | [H | [H | H]]]]]];
    try (destruct selectedStrategy;
         [apply foldl_validateParameter_grows |];
         apply basicErrors_invalid; tauto).
  - destruct H as (info & -> & paramName & schema & Hin & Hdef & Hblank).
    eapply foldl_validateParameter_offending; [exact Hin |].
    intros e. now apply validateParameter_required.
  - destruct H as (info & -> & paramName & schema & x & Hin & Hblank & Hnum & Hout).
    eapply foldl_validateParameter_offending; [exact Hin |].
    intros e. eapply validateParameter_bounds; eassumption.
Qed.

(** C9. In create mode, a form whose bot id is empty or has a character
    outside letters, digits, hyphen and underscore, whose strategy or symbol
    is empty, whose initial balance is not positive, which misses a schema
    parameter that has no default, or which gives a numeric parameter outside
    its bounds, fails [validateForm]; submitting it only records the errors:
    no create and no update request is sent. *)
Theorem invalid_form_not_submitted selectedStrategy formData botId mutation_resolves :
  invalid_form Number_of_string selectedStrategy formData ->
  validateForm Number_of_string create selectedStrategy formData = false
  /\ handleSubmit Number_of_string create botId selectedStrategy formData
                  mutation_resolves
     = [PreventDefault; SetErrors (formErrors Number_of_string create selectedStrategy formData)]
  /\ filter (fun e => is_mutation e = true)
            (handleSubmit Number_of_string create botId selectedStrategy formData
                          mutation_resolves)
     = [].
Proof.
  intros Hbad.
  assert (Hfalse : validateForm Number_of_string create selectedStrategy formData = false).
  { unfold validateForm. apply bool_decide_eq_false_2.
    intros Hsize. apply map_size_empty_iff in Hsize.
    now apply (formErrors_invalid selectedStrategy formData). }
  split; [exact Hfalse |].
  unfold handleSubmit. rewrite Hfalse. cbn [negb]. split; reflexivity.
Qed.
End Form.

Lemma invalid_form_not_submitted_witness :
  validateForm no_numeric_strings create (Some sma_strategy) wide_window_form = false.
Proof.
  refine (proj1 (invalid_form_not_submitted no_numeric_strings (Some sma_strategy)
                   wide_window_form "" true _)).
  do 6 right. exists sma_strategy. split; [reflexivity |].
  do 3 eexists. split; [apply list_elem_of_here |].
  split; [reflexivity |]. split; [reflexivity |].
  right. exists 200%Q. split; reflexivity.
Defined.

End BotModalFacts.

(** ** The fill model *)

Module FillModelFacts.
Import Engine Examples.

Local Open Scope Q_scope.











(** The two bars of the specification's example, evaluated. *)
Lemma limit_buy_100_example :
  map fill_price (fill_model plain_fills limit_buy_100 crossing_bar).1 = [100]
  /\ map fill_quantity (fill_model plain_fills limit_buy_100 crossing_bar).1
     = [remaining_quantity limit_buy_100]
  /\ (fill_model plain_fills limit_buy_100 higher_bar).1 = [].
Proof. repeat split; reflexivity. Qed.

(** With the cap, a bar of volume 4 fills 4/10 of the order at the limit
    price and leaves the order partially filled. *)
Lemma capped_fill_example :
  map (fun f => (fill_price f, Qred (fill_quantity f), is_partial f))
      (fill_model capped_fills limit_buy_100 thin_bar).1
  = [(100, 2 # 5, true)]
  /\ ord_status (fill_model capped_fills limit_buy_100 thin_bar).2 = partially_filled
  /\ Qred (filled_quantity (fill_model capped_fills limit_buy_100 thin_bar).2) = 2 # 5.
Proof. repeat split; reflexivity. Qed.

End FillModelFacts.

(** ** Position direction and opening trades *)

Module DirectionFacts.
Import TradesHistory TradesHistoryView Examples.

Lemma js_findIndex_Some {A : Type} (p : A -> bool) (l : list A) k :
  js_findIndex p l = Some k <->
  (exists x, l !! k = Some x /\ p x = true)
  /\ forall j y, (j < k)%nat -> l !! j = Some y -> p y = false.
Proof.
  revert k. induction l as [| x r IH]; intros k; cbn [js_findIndex].
  - split; [discriminate |]. intros [(y & Hy & _) _]. discriminate.
  - destruct (p x) eqn:Hpx.
    + split.
      * intros [= <-]. split; [exists x; auto |]. intros j y Hj. lia.
      * intros [(y & Hy & Hpy) Hbefore]. destruct k as [| k]; [reflexivity |].
        specialize (Hbefore 0%nat x ltac:(lia) eq_refl). congruence.
    + destruct k as [| k].
      * split.
        -- destruct (js_findIndex p r); discriminate.
        -- intros [(y & Hy & Hpy) _]. cbn in Hy. congruence.
      * split.
        -- intros Hidx.
           assert (Hk : js_findIndex p r = Some k).
           { destruct (js_findIndex p r) as [k' |]; [| discriminate].
             injection Hidx as ->. reflexivity. }
           apply IH in Hk as [Hat Hbefore]. split; [exact Hat |].
           intros [| j] y Hj Hy; [cbn in Hy; congruence |].
           apply (Hbefore j y); [lia | exact Hy].
        -- intros [Hat Hbefore].
           assert (Hk : js_findIndex p r = Some k).
           { apply IH. split; [exact Hat |].
             intros j y Hj Hy. apply (Hbefore (S j) y); [lia | exact Hy]. }
           now rewrite Hk.
Qed.

(** With distinct timestamps a trade is found at its own index. *)
Lemma closingIndex_own (allTrades : list Trade) k closingTrade :
  NoDup (timestamp <$> allTrades) ->
  allTrades !! k = Some closingTrade ->
  js_findIndex (fun t => bool_decide (timestamp t = timestamp closingTrade)) allTrades
  = Some k.
Proof.
  intros Hnd Hk. apply js_findIndex_Some. split.
  - exists closingTrade. split; [exact Hk | now apply bool_decide_eq_true_2].
  - intros j y Hj Hy. apply bool_decide_eq_false_2. intros Heq.
    assert (j = k); [| lia].
    eapply NoDup_lookup; [exact Hnd | |]; rewrite list_lookup_fmap.
    + rewrite Hy. reflexivity.
    + rewrite Hk. cbn. now rewrite Heq.
Qed.

Lemma scan_back_spec allTrades closingTrade n :
  match scan_back allTrades closingTrade n with
  | Some o =>
      exists i, (i < n)%nat /\ allTrades !! i = Some o
                /\ is_opening_of closingTrade o = true
                /\ forall j t, (i < j < n)%nat -> allTrades !! j = Some t ->
                               is_opening_of closingTrade t = false
  | None =>
      forall j t, (j < n)%nat -> allTrades !! j = Some t ->
                  is_opening_of closingTrade t = false
  end.
Proof.
  induction n as [| n IH]; cbn [scan_back].
  - intros j t Hj. lia.
  - destruct (allTrades !! n) as [trade |] eqn:Hn.
    + destruct (is_opening_of closingTrade trade) eqn:Hop.
      * exists n. repeat split; auto. intros j t Hj. lia.
      * destruct (scan_back allTrades closingTrade n) as [o |].
        -- destruct IH as (i & Hi & Hio & Hopen & Hbetween).
           exists i. repeat split; auto.
           intros j t Hj Hjt. destruct (decide (j = n)) as [-> | Hne].
           ++ congruence.
           ++ apply (Hbetween j t); [lia | exact Hjt].
        -- intros j t Hj Hjt. destruct (decide (j = n)) as [-> | Hne].
           ++ congruence.
           ++ apply (IH j t); [lia | exact Hjt].
    + destruct (scan_back allTrades closingTrade n) as [o |].
      * destruct IH as (i & Hi & Hio & Hopen & Hbetween).
        exists i. repeat split; auto.
        intros j t Hj Hjt. destruct (decide (j = n)) as [-> | Hne].
        -- congruence.
        -- apply (Hbetween j t); [lia | exact Hjt].
      * intros j t Hj Hjt. destruct (decide (j = n)) as [-> | Hne].
        -- congruence.
        -- apply (IH j t); [lia | exact Hjt].
Qed.

Lemma is_opening_of_true closingTrade t :
  is_opening_of closingTrade t = true <->
  symbol t = symbol closingTrade /\ type t = Some TRADE_TYPE.OPEN.
Proof.
  unfold is_opening_of. rewrite andb_true_iff, !bool_decide_eq_true. reflexivity.
Qed.

(** X1. In a trade list with distinct timestamps, [findOpeningTrade] of the
    trade at index [k] is the nearest earlier trade of the same symbol with
    type "open"; it is [null] exactly when no earlier trade of that symbol is
    an opening one. *)
Theorem findOpeningTrade_nearest (allTrades : list Trade) k closingTrade :
  NoDup (timestamp <$> allTrades) ->
  allTrades !! k = Some closingTrade ->
  match findOpeningTrade closingTrade allTrades with
  | Some o =>
      exists i, (i < k)%nat /\ allTrades !! i = Some o
                /\ symbol o = symbol closingTrade /\ type o = Some TRADE_TYPE.OPEN
                /\ forall j t, (i < j < k)%nat -> allTrades !! j = Some t ->
                               ~ (symbol t = symbol closingTrade
                                  /\ type t = Some TRADE_TYPE.OPEN)
  | None =>
      forall j t, (j < k)%nat -> allTrades !! j = Some t ->
                  ~ (symbol t = symbol closingTrade /\ type t = Some TRADE_TYPE.OPEN)
  end.
Proof.
  intros Hnd Hk. unfold findOpeningTrade.
  rewrite (closingIndex_own allTrades k closingTrade Hnd Hk).
  pose proof (scan_back_spec allTrades closingTrade k) as Hscan.
  destruct (scan_back allTrades closingTrade k) as [o |].
  - destruct Hscan as (i & Hi & Hio & Hopen & Hbetween).
    apply is_opening_of_true in Hopen as [Hsym Hty].
    exists i. repeat split; auto.
    intros j t Hj Hjt Hboth. apply is_opening_of_true in Hboth.
    rewrite (Hbetween j t Hj Hjt) in Hboth. discriminate.
  - intros j t Hj Hjt Hboth. apply is_opening_of_true in Hboth.
    rewrite (Hscan j t Hj Hjt) in Hboth. discriminate.
Qed.

Lemma findOpeningTrade_nearest_witness :
  findOpeningTrade btc_close mixed_trades = Some btc_buy
  /\ exists i, (i < 2)%nat /\ mixed_trades !! i = Some btc_buy.
Proof.
  pose proof (findOpeningTrade_nearest mixed_trades 2 btc_close) as H.
  assert (Hnd : NoDup (timestamp <$> mixed_trades)).
  { cbn. repeat constructor; rewrite ?elem_of_cons, ?elem_of_nil;
      intros Hin; repeat destruct Hin as [Hin | Hin]; try discriminate; exact Hin. }
  specialize (H Hnd eq_refl).
  change (findOpeningTrade btc_close mixed_trades) with (Some btc_buy) in H.
  split; [reflexivity |].
  destruct H as (i & Hi & Hio & _). exists i. split; assumption.
Defined.

Lemma findOpeningTrade_is_open closingTrade allTrades o :
  findOpeningTrade closingTrade allTrades = Some o -> type o = Some TRADE_TYPE.OPEN.
Proof.
  unfold findOpeningTrade.
  destruct (js_findIndex _ allTrades) as [k |]; [| discriminate].
  pose proof (scan_back_spec allTrades closingTrade k) as Hscan.
  intros Heq. rewrite Heq in Hscan.
  destruct Hscan as (i & _ & _ & Hopen & _).
  now apply is_opening_of_true in Hopen.
Qed.

(** X2. The direction badge is always "long" or "short", never "unknown",
    whatever the trade, the trade list and the bot status are. *)
Theorem direction_long_or_short botStatus trade allTrades :
  getPositionDirection botStatus trade allTrades = POSITION_DIRECTION.LONG
  \/ getPositionDirection botStatus trade allTrades = POSITION_DIRECTION.SHORT.
Proof.
  assert (Hside : forall s, direction_of_side s = POSITION_DIRECTION.LONG
                            \/ direction_of_side s = POSITION_DIRECTION.SHORT).
  { intros s. unfold direction_of_side. case_bool_decide; auto. }
  assert (Hname : forall s, side_name s = POSITION_DIRECTION.LONG
                            \/ side_name s = POSITION_DIRECTION.SHORT).
  { intros []; cbn; auto. }
  unfold getPositionDirection. cbv zeta.
  repeat case_bool_decide; auto;
    repeat match goal with
      | |- context [match ?o with Some _ => _ | None => _ end] => destruct o
      end; auto.
Qed.

(** X3. A trade of type "close" whose opening trade is found gets the badge
    of that opening trade's own row: long after a buy, short after a
    sell. *)
Theorem closing_row_direction botStatus closingTrade allTrades openingTrade :
  type closingTrade = Some TRADE_TYPE.CLOSE ->
  findOpeningTrade closingTrade allTrades = Some openingTrade ->
  getPositionDirection botStatus closingTrade allTrades
  = getPositionDirection botStatus openingTrade allTrades
  /\ (side openingTrade = TRADE_SIDE.BUY ->
      getPositionDirection botStatus closingTrade allTrades = POSITION_DIRECTION.LONG)
  /\ (side openingTrade <> TRADE_SIDE.BUY ->
      getPositionDirection botStatus closingTrade allTrades = POSITION_DIRECTION.SHORT).
Proof.
  intros Hclose Hfound.
  pose proof (findOpeningTrade_is_open _ _ _ Hfound) as Hopen.
  assert (Hc : getPositionDirection botStatus closingTrade allTrades
               = direction_of_side (side openingTrade)).
  { unfold getPositionDirection. cbv zeta. rewrite Hclose, Hfound.
    rewrite bool_decide_eq_false_2 by discriminate.
    now rewrite bool_decide_eq_true_2 by reflexivity. }
  assert (Ho : getPositionDirection botStatus openingTrade allTrades
               = direction_of_side (side openingTrade)).
  { unfold getPositionDirection. cbv zeta. rewrite Hopen.
    now rewrite bool_decide_eq_true_2 by reflexivity. }
  rewrite Hc, Ho. split; [reflexivity |]. unfold direction_of_side. split; intros Hs.
  - now rewrite bool_decide_eq_true_2.
  - now rewrite bool_decide_eq_false_2.
Qed.

Lemma closing_row_direction_witness :
  getPositionDirection (Some flat_status) btc_close mixed_trades = "long"%string.
Proof.
  exact (proj1 (proj2 (closing_row_direction (Some flat_status) btc_close mixed_trades
                         btc_buy eq_refl eq_refl)) eq_refl).
Defined.

End DirectionFacts.

(** ** Rows of the trade history *)

Module RowFacts.
Import TradesHistory TradesHistoryView Examples.

Lemma js_find_Some {A : Type} (p : A -> bool) (l : list A) x :
  js_find p l = Some x -> x ∈ l /\ p x = true.
Proof.
  induction l as [| y r IH]; cbn [js_find]; [discriminate |].
  destruct (p y) eqn:Hpy.
  - intros [= <-]. split; [apply list_elem_of_here | exact Hpy].
  - intros Hx. destruct (IH Hx) as [Hin Hpx]. split; [now apply list_elem_of_further | exact Hpx].
Qed.

(** X4. A row marked live (labelled "Unrealized P&L") always belongs to a
    trade that carries the OPEN status badge, has no explicit PnL of its own,
    and has an open position of its symbol in the bot status; without a bot
    status no row is ever live. *)
Theorem live_row_is_open trades botStatus trade index :
  isLive (calculateTradePnL trades botStatus trade index) = true ->
  getPositionStatus botStatus trade = POSITION_STATUS.OPEN
  /\ explicit_pnl trade = None
  /\ exists bs position,
       botStatus = Some bs /\ position ∈ bs_positions bs
       /\ pos_symbol position = symbol trade.
Proof.
  unfold calculateTradePnL. destruct trades as [ts |]; [| discriminate].
  destruct (explicit_pnl trade) as [p |]; [discriminate |].
  destruct (live_position botStatus trade) as [position |] eqn:Hlive; [| discriminate].
  intros _. unfold live_position in Hlive.
  case_bool_decide as Hst; [| discriminate].
  destruct botStatus as [bs |]; [| discriminate].
  apply js_find_Some in Hlive as [Hin Hsym].
  split; [exact Hst |]. split; [reflexivity |].
  exists bs, position. split; [reflexivity |]. split; [exact Hin |].
  now apply bool_decide_eq_true_1 in Hsym.
Qed.

Lemma live_row_is_open_witness :
  getPositionStatus (Some btc_status) btc_buy = POSITION_STATUS.OPEN.
Proof.
  exact (proj1 (live_row_is_open (Some [btc_buy]) (Some btc_status) btc_buy 0 eq_refl)).
Defined.

(** The trade with its [pnl] field removed. *)
Lemma without_pnl_fields (t : Trade) :
  let t' := mkTrade (timestamp t) (symbol t) (side t) (price t) (quantity t) (type t) None in
  (forall bs, live_position bs t' = live_position bs t)
  /\ (forall position, unrealizedPnL position t' = unrealizedPnL position t)
  /\ (forall ts i, pairPnL ts t' i = pairPnL ts t i).
Proof. destruct t. cbv zeta. repeat split. Qed.

(** X5. An explicit PnL of exactly zero counts as no PnL at all: the row of
    such a trade shows what it would show had the backend sent no [pnl], a
    live figure, a buy/sell pair figure or nothing, and never the booked
    zero. *)
Theorem zero_pnl_is_ignored trades botStatus trade index p :
  pnl trade = Some p -> (p == 0)%Q ->
  calculateTradePnL trades botStatus trade index
  = calculateTradePnL trades botStatus
      (mkTrade (timestamp trade) (symbol trade) (side trade) (price trade)
               (quantity trade) (type trade) None)
      index.
Proof.
  intros Hp Hzero.
  destruct (without_pnl_fields trade) as (Hlive & Hunreal & Hpair). cbv zeta in *.
  unfold calculateTradePnL. destruct trades as [ts |]; [| reflexivity].
  unfold explicit_pnl. rewrite Hp. cbn [pnl].
  rewrite (proj2 (Qeq_bool_iff p 0) Hzero).
  rewrite Hlive. destruct (live_position botStatus trade) as [position |].
  - now rewrite Hunreal.
  - now rewrite Hpair.
Qed.

Lemma zero_pnl_is_ignored_witness :
  res_pnl (calculateTradePnL (Some [short_open; short_cover]) (Some flat_status)
             (mkTrade "2024-01-02T00:00:00Z" "ETHUSDT" "buy" 90 1 (Some "close") (Some 0%Q))
             1)
  = None.
Proof.
  rewrite (zero_pnl_is_ignored (Some [short_open; short_cover]) (Some flat_status)
             (mkTrade "2024-01-02T00:00:00Z" "ETHUSDT" "buy" 90 1 (Some "close") (Some 0%Q))
             1 0%Q eq_refl (Qeq_refl 0)).
  reflexivity.
Defined.

End RowFacts.

(** ** Pages, labels and page buttons *)

Module PageFacts.
Import TradesHistory TradesHistoryView Examples.

(** Membership in [seq], whichever membership predicate states it. *)
Ltac seq_bounds H := first [apply in_seq in H | apply elem_of_seq in H].

Lemma window_chunks {A : Type} (n : nat) (l : list A) :
  (length l <= 5 * n)%nat ->
  concat (map (fun i => take 5 (drop (5 * i) l)) (seq 0 n)) = l.
Proof.
  revert l. induction n as [| n IH]; intros l Hlen.
  - destruct l; [reflexivity | cbn in Hlen; lia].
  - cbn [seq map concat]. rewrite <- seq_shift, map_map.
    rewrite Nat.mul_0_r, drop_0.
    transitivity (take 5 l ++ drop 5 l); [| apply take_drop]. f_equal.
    etransitivity; [| apply (IH (drop 5 l)); rewrite length_drop; lia].
    f_equal. apply map_ext. intros i. rewrite drop_drop. do 2 f_equal. lia.
Qed.

Section Pages.
Variable Date_getTime : string -> Z.

Local Abbreviation page trades p := (paginatedTrades Date_getTime (Some trades) p).
Local Abbreviation sorted trades := (sortedTrades Date_getTime trades).

Lemma page_window trades (i : nat) :
  page trades (Z.of_nat i + 1) = take 5 (drop (5 * i) (sorted trades)).
Proof.
  unfold paginatedTrades, TRADES_PER_PAGE. cbv zeta.
  rewrite js_slice_window by lia. do 2 f_equal. lia.
Qed.

Lemma sorted_length trades : length (sorted trades) = length trades.
Proof. apply Permutation_length, js_sort_perm. Qed.

Lemma totalPages_nat trades :
  let T := Z.to_nat (totalPages (Some trades)) in
  (length trades <= 5 * T)%nat /\ (forall i, (i < T)%nat -> (5 * i < length trades)%nat).
Proof.
  cbv zeta. pose proof (PaginationFacts.totalPages_ceil trades) as H. cbv zeta in H.
  split; [lia |]. intros i Hi. lia.
Qed.

(** X6. The pages 1 to [totalPages], put one after the other, are exactly
    the newest-first list of all trades: every trade is on one page and none
    is shown twice. Each of these pages has at least one trade, and every
    page after the last one is empty. *)
Theorem pages_cover_all_trades (trades : list Trade) :
  concat (map (fun p => page trades p) (allPages (Some trades))) = sorted trades
  /\ Forall (fun p => page trades p <> []) (allPages (Some trades))
  /\ forall p, totalPages (Some trades) < p -> page trades p = [].
Proof.
  destruct (totalPages_nat trades) as [Hfit Hinside]. cbv zeta in *.
  unfold allPages. rewrite map_map. split; [| split].
  - rewrite (map_ext _ (fun i => take 5 (drop (5 * i) (sorted trades))))
      by (intros i; apply page_window).
    apply window_chunks. now rewrite sorted_length.
  - apply Forall_map, Forall_forall. intros i Hi. seq_bounds Hi.
    rewrite page_window. intros Hnil.
    apply (f_equal length) in Hnil.
    rewrite length_take, length_drop, sorted_length in Hnil. cbn [length] in Hnil.
    specialize (Hinside i ltac:(lia)). lia.
  - intros p Hp. unfold paginatedTrades, TRADES_PER_PAGE. cbv zeta.
    pose proof (PaginationFacts.totalPages_ceil trades) as H. cbv zeta in H.
    rewrite js_slice_window by lia.
    rewrite drop_ge; [apply take_nil |]. rewrite sorted_length. lia.
Qed.

(** X7. On every page from 1 to [totalPages] the caption "Showing a to b of
    n" is right: b - a + 1 is the number of rows on the page, and
    1 <= a <= b <= n. *)
Theorem showing_caption_counts_rows (trades : list Trade) (p : Z) :
  1 <= p <= totalPages (Some trades) ->
  Z.of_nat (length (page trades p))
  = showingTo (Some trades) p - showingFrom p + 1
  /\ 1 <= showingFrom p <= showingTo (Some trades) p
  /\ showingTo (Some trades) p <= Z.of_nat (length trades).
Proof.
  intros Hp. pose proof (PaginationFacts.totalPages_ceil trades) as H. cbv zeta in H.
  unfold showingTo, showingFrom, paginatedTrades, TRADES_PER_PAGE in *. cbv zeta.
  rewrite js_slice_window by lia.
  rewrite length_take, length_drop, sorted_length. lia.
Qed.
End Pages.

Lemma showing_caption_counts_rows_witness :
  Z.of_nat (length (paginatedTrades example_getTime (Some seven_trades) 2)) = 7 - 6 + 1.
Proof.
  refine (proj1 (showing_caption_counts_rows example_getTime seven_trades 2 _)).
  split; [lia | discriminate].
Defined.

Lemma pageNum_first totalPages currentPage i :
  pageNum totalPages currentPage i = pageNum totalPages currentPage 0 + i.
Proof. unfold pageNum. repeat destruct (_ <=? _); lia. Qed.

(** X8. With the current page between 1 and [totalPages], the page-number
    row shows min(totalPages, 5) consecutive numbers, all of them existing
    pages, the current page among them; clicking a number makes exactly that
    page the current one. *)
Theorem page_buttons_window (trades : option (list Trade)) (currentPage : Z) :
  1 <= currentPage <= totalPages trades ->
  let buttons := pageButtons (totalPages trades) currentPage in
  length buttons = Z.to_nat (Z.min (totalPages trades) 5)
  /\ (forall i b, buttons !! i = Some b ->
        b = pageNum (totalPages trades) currentPage 0 + Z.of_nat i)
  /\ Forall (fun b => 1 <= b <= totalPages trades) buttons
  /\ currentPage ∈ buttons
  /\ Forall (fun b => goToPage trades b = b) buttons.
Proof.
  intros Hcp buttons. subst buttons. unfold pageButtons.
  set (T := totalPages trades) in *.
  assert (Hrange : forall i, (i < Z.to_nat (Z.min T 5))%nat ->
            1 <= pageNum T currentPage (Z.of_nat i) <= T).
  { intros i Hi. unfold pageNum.
    destruct (Z.leb_spec T 5); [lia |].
    destruct (Z.leb_spec currentPage 3); [lia |].
    destruct (Z.leb_spec (T - 2) currentPage); lia. }
  split; [now rewrite length_map, length_seq |].
  split.
  { intros i b Hb. rewrite list_lookup_fmap in Hb.
    destruct (seq 0 _ !! i) as [j |] eqn:Hj; [| discriminate].
    apply lookup_seq in Hj as [-> _]. injection Hb as <-.
    apply pageNum_first. }
  split.
  { apply Forall_map, Forall_forall. intros i Hi. seq_bounds Hi.
    apply Hrange. lia. }
  split.
  { apply list_elem_of_fmap.
    assert (Hoff : 0 <= currentPage - pageNum T currentPage 0 < Z.min T 5).
    { unfold pageNum.
      destruct (Z.leb_spec T 5); [lia |].
      destruct (Z.leb_spec currentPage 3); [lia |].
      destruct (Z.leb_spec (T - 2) currentPage); lia. }
    exists (Z.to_nat (currentPage - pageNum T currentPage 0)). split.
    - rewrite (pageNum_first T currentPage (Z.of_nat _)). lia.
    - apply elem_of_seq. lia. }
  apply Forall_map, Forall_forall. intros i Hi. seq_bounds Hi.
  specialize (Hrange i ltac:(lia)). unfold goToPage. fold T. lia.
Qed.

Lemma page_buttons_window_witness :
  pageButtons 9 8 = [5; 6; 7; 8; 9]
  /\ length (pageButtons (totalPages (Some seven_trades)) 2) = 2%nat.
Proof.
  split; [reflexivity |].
  refine (proj1 (page_buttons_window (Some seven_trades) 2 _)).
  split; [lia | discriminate].
Defined.

End PageFacts.

(** ** Order of trades with equal timestamps *)

Section StableSort.
Context {A : Type}.
Variable cmp : A -> A -> Z.
Variable q : A -> bool.
(** Elements selected by [q] compare as equal. *)
Hypothesis q_equal : forall x y, q x = true -> q y = true -> cmp x y <= 0.

Lemma js_sort_insert_filter x l :
  List.filter q (js_sort_insert cmp x l)
  = if q x then x :: List.filter q l else List.filter q l.
Proof.
  induction l as [| y r IH]; cbn [js_sort_insert List.filter].
  - reflexivity.
  - destruct (Z.leb_spec (cmp x y) 0) as [Hle | Hgt]; cbn [List.filter].
    + reflexivity.
    + rewrite IH. destruct (q x) eqn:Hqx; [| reflexivity].
      destruct (q y) eqn:Hqy; [| reflexivity].
      specialize (q_equal x y Hqx Hqy). lia.
Qed.

Lemma js_sort_filter l : List.filter q (js_sort cmp l) = List.filter q l.
Proof.
  unfold js_sort. induction l as [| x r IH]; cbn [foldr List.filter]; [reflexivity |].
  rewrite js_sort_insert_filter, IH. reflexivity.
Qed.
End StableSort.

Module StableFacts.
Import TradesHistory.

(** X9. Sorting newest-first keeps trades with the same timestamp in the
    order in which the backend sent them: for every instant, the trades of
    that instant appear in the sorted list exactly as in the original
    list. *)
Theorem equal_timestamps_keep_order (Date_getTime : string -> Z) (trades : list Trade)
    (instant : Z) :
  List.filter (fun t => Date_getTime (timestamp t) =? instant)
              (sortedTrades Date_getTime trades)
  = List.filter (fun t => Date_getTime (timestamp t) =? instant) trades.
Proof.
  unfold sortedTrades. apply js_sort_filter.
  intros x y Hx Hy. apply Z.eqb_eq in Hx, Hy. unfold newest_first. lia.
Qed.

End StableFacts.

(** ** What the component shows *)

Module ViewFacts.
Import TradesHistory TradesHistoryView Api Examples.


(** The three cases on concrete backends. *)
Lemma error_panel_examples :
  render example_getTime (settled_query (fetchBotTrades failing_backend "bot_1")) None 1
  = ErrorLoadingTrades
  /\ render example_getTime (settled_query (fetchBotTrades one_bot_backend "bot_2")) None 1
     = NoTradesYet.
Proof. split; reflexivity. Qed.

End ViewFacts.

(** ** The risk summary *)

Module RiskPanelFacts.
Import RiskPanel Examples.

(** X11. In the risk summary the number of passing rules and the number of
    violations add up to the total number of rules, for every risk
    record. *)
Theorem risk_summary_adds_up (risk : BotRisk) :
  (passingRules risk + violatedRules risk = totalRules risk)%nat.
Proof.
  unfold passingRules, violatedRules, totalRules.
  induction (evaluations risk) as [| e rest IH]; [reflexivity |].
  cbn [List.filter length]. destruct (is_violated e); cbn [negb length]; lia.
Qed.

End RiskPanelFacts.

(** ** What the form validation records *)

Module BotModalStateFacts.
Import BotModal BotModalState Examples.


Lemma js_fromEntries_other {V : Type} (entries : list (string * V))
    (m : gmap string V) (k : string) :
  k ∉ entries.*1 ->
  foldl (fun (m : gmap string V) entry => <[entry.1 := entry.2]> m) m entries !! k
  = m !! k.
Proof.
  revert m. induction entries as [| e rest IH]; intros m Hk; cbn [foldl]; [reflexivity |].
  cbn [fmap list_fmap] in Hk. apply not_elem_of_cons in Hk as [Hne Hrest].
  rewrite IH by exact Hrest. now apply lookup_insert_ne.
Qed.

Lemma js_fromEntries_lookup {V : Type} (entries : list (string * V)) k v :
  NoDup entries.*1 -> (k, v) ∈ entries -> js_fromEntries entries !! k = Some v.
Proof.
  unfold js_fromEntries. generalize (∅ : gmap string V).
  induction entries as [| e rest IH]; intros m Hnd Hin.
  - now apply not_elem_of_nil in Hin.
  - cbn [fmap list_fmap] in Hnd. apply NoDup_cons in Hnd as [Hfresh Hnd].
    cbn [foldl]. apply elem_of_cons in Hin as [<- | Hin].
    + cbn [fst snd] in *. rewrite js_fromEntries_other by exact Hfresh.
      apply lookup_insert_eq.
    + now apply IH.
Qed.

Section Checks.
Variable Number_of_string : string -> JsNumber.

Local Abbreviation validateParameter := (BotModal.validateParameter Number_of_string).
Local Abbreviation param_error := (BotModalState.param_error Number_of_string).
Local Abbreviation formErrors := (BotModal.formErrors Number_of_string).

(** Each round of the [forEach] records the entry's error, if it has one. *)
Lemma validateParameter_records ps errs entry :
  validateParameter ps errs entry
  = match param_error ps entry with
    | Some e => <[param_key entry.1 := e]> errs
    | None => errs
    end.
Proof.
  destruct entry as [paramName schema].
  unfold BotModal.validateParameter, BotModalState.param_error. cbv zeta. cbn [fst].
  destruct (is_blank (param_value ps paramName)); cbn [negb].
  - now destruct (default_value schema).
  - destruct (bool_decide (sch_type schema = "number")
              && isNaN (Number Number_of_string (param_value ps paramName)));
      [reflexivity |].
    destruct (bool_decide (sch_type schema = "integer")
              && negb (Number_isInteger (Number Number_of_string (param_value ps paramName))));
      [reflexivity |].
    destruct (minimum schema) as [lo |], (maximum schema) as [hi |];
      repeat match goal with
        | |- context [if ?c then _ else _] => destruct c
        end; reflexivity.
Qed.

Lemma foldl_empty_iff ps entries errs :
  foldl (validateParameter ps) errs entries = ∅ <->
  errs = ∅ /\ Forall (fun entry => param_error ps entry = None) entries.
Proof.
  revert errs. induction entries as [| entry rest IH]; intros errs; cbn [foldl].
  - split; [intros ->; split; [reflexivity | constructor] | tauto].
  - rewrite IH, validateParameter_records. split.
    + intros [Hstep Hrest]. destruct (param_error ps entry) as [e |] eqn:Herr.
      * now apply insert_non_empty in Hstep.
      * split; [exact Hstep | now constructor].
    + intros [-> Hall]. apply Forall_cons in Hall as [Herr Hrest].
      now rewrite Herr.
Qed.

Lemma basicErrors_as_errors mode formData :
  let e0 : gmap string ErrorText :=
    match id_error mode formData with Some e => <["id" := e]> ∅ | None => ∅ end in
  let e1 := if bool_decide (strategy formData = "")
            then <["strategy" := Text "Strategy is required"]> e0 else e0 in
  let e2 := if bool_decide (BotModal.symbol formData = "")
            then <["symbol" := Text "Trading symbol is required"]> e1 else e1 in
  basicErrors mode formData
  = if js_le (initial_balance formData) 0
    then <["initial_balance" := Text "Initial balance must be greater than 0"]> e2
    else e2.
Proof.
  cbv zeta. unfold basicErrors, id_error. cbv zeta.
  destruct (bool_decide (trim (id formData) = "") && bool_decide (mode = create));
    [reflexivity |].
  now destruct (negb (bool_decide (id formData = ""))
                && negb (id_regex_test (id formData))).
Qed.

Lemma basicErrors_empty_iff mode formData :
  basicErrors mode formData = ∅ <->
  id_error mode formData = None /\ strategy formData <> ""
  /\ BotModal.symbol formData <> "" /\ js_le (initial_balance formData) 0 = false.
Proof.
  rewrite basicErrors_as_errors. cbv zeta. split.
  - intros Hempty.
    destruct (js_le (initial_balance formData) 0);
      [now apply insert_non_empty in Hempty |].
    case_bool_decide as Hsym; [now apply insert_non_empty in Hempty |].
    case_bool_decide as Hstrat; [now apply insert_non_empty in Hempty |].
    destruct (id_error mode formData);
      [now apply insert_non_empty in Hempty | auto].
  - intros (Hid & Hstrat & Hsym & Hbal). rewrite Hid, Hbal.
    now rewrite !bool_decide_eq_false_2 by assumption.
Qed.

Lemma validateForm_checks mode selectedStrategy formData :
  validateForm Number_of_string mode selectedStrategy formData = true
  <-> all_checks_pass Number_of_string mode selectedStrategy formData.
Proof.
  unfold validateForm, all_checks_pass. rewrite bool_decide_eq_true, map_size_empty_iff.
  unfold BotModal.formErrors. destruct selectedStrategy as [info |].
  - rewrite foldl_empty_iff, basicErrors_empty_iff. split.
    + intros [(Hid & Hstrat & Hsym & Hbal) Hall]. repeat split; auto.
      now intros info' [= <-].
    + intros (Hid & Hstrat & Hsym & Hbal & Hall). repeat split; auto.
  - rewrite basicErrors_empty_iff. split.
    + intros (Hid & Hstrat & Hsym & Hbal). repeat split; auto. discriminate.
    + intros (Hid & Hstrat & Hsym & Hbal & _). auto.
Qed.

(** X12. [validateForm] accepts a form exactly when every check passes: the
    id check of the mode, a strategy, a symbol, an initial balance that is
    not <= 0, and no failing check on any parameter of the selected
    strategy's schema. In particular edit mode accepts an empty id and a
    [NaN] balance is accepted. *)
Theorem validateForm_accepts_iff mode selectedStrategy formData :
  (validateForm Number_of_string mode selectedStrategy formData = true
   <-> all_checks_pass Number_of_string mode selectedStrategy formData)
  /\ (id formData = "" -> id_error edit formData = None)
  /\ (initial_balance formData = NaN -> js_le (initial_balance formData) 0 = false).
Proof.
  split; [apply validateForm_checks |]. split.
  - intros Hid. unfold id_error. rewrite Hid. change (trim "") with ""%string.
    rewrite (bool_decide_eq_false_2 (edit = create)) by discriminate.
    rewrite andb_false_r.
    now rewrite (bool_decide_eq_true_2 (@eq string "" "") eq_refl).
  - now intros ->.
Qed.

(** X16. Submitting the form sends a request exactly when every check
    passes, and then exactly one: a create request in create mode, an update
    request for the bot in edit mode. The modal is closed only after a
    request that succeeded; a rejected request leaves it open. *)
Theorem submit_sends_iff_valid mode botId selectedStrategy formData mutation_resolves :
  let effects :=
    handleSubmit Number_of_string mode botId selectedStrategy formData
                 mutation_resolves in
  let sent := List.filter is_mutation effects in
  (all_checks_pass Number_of_string mode selectedStrategy formData ->
   sent = [match mode with
           | create => CreateBotRequest formData
           | edit => UpdateBotRequest botId formData
           end]
   /\ (OnClose ∈ effects <-> mutation_resolves = true))
  /\ (~ all_checks_pass Number_of_string mode selectedStrategy formData ->
      sent = [] /\ OnClose ∉ effects).
Proof.
  cbv zeta. unfold handleSubmit. split; intros Hvalid.
  - rewrite (proj2 (validateForm_checks mode selectedStrategy formData) Hvalid).
    cbn [negb]. split.
    + destruct mode, mutation_resolves; reflexivity.
    + destruct mutation_resolves; split; try reflexivity; try discriminate.
      * intros _. do 3 apply list_elem_of_further. apply list_elem_of_here.
      * intros Hin. repeat (apply elem_of_cons in Hin as [Hin | Hin];
                            [destruct mode; discriminate |]).
        now apply not_elem_of_nil in Hin.
  - destruct (validateForm Number_of_string mode selectedStrategy formData) eqn:Hv.
    + now apply validateForm_checks in Hv.
    + cbn [negb]. split; [reflexivity |].
      intros Hin. repeat (apply elem_of_cons in Hin as [Hin | Hin]; [discriminate |]).
      now apply not_elem_of_nil in Hin.
Qed.








(** X14. When the parameters are the defaults built from a schema with
    distinct names, every parameter holds its schema default (the empty
    string when the default is missing or undefined), and validation reports
    a parameter as required exactly when its schema has no [default] key. *)
Theorem defaults_required_iff_no_default info paramName schema :
  NoDup (parameter_schema info).*1 ->
  (paramName, schema) ∈ parameter_schema info ->
  param_value (schemaDefaults info) paramName = default_or_blank schema
  /\ (param_error (schemaDefaults info) (paramName, schema) = Some (Required paramName)
      <-> default_value schema = None).
Proof.
  intros Hnd Hin.
  assert (Hval : param_value (schemaDefaults info) paramName = default_or_blank schema).
  { unfold param_value, schemaDefaults.
    rewrite (js_fromEntries_lookup _ paramName (default_or_blank schema)).
    - reflexivity.
    - now rewrite <- list_fmap_compose.
    - apply list_elem_of_fmap. now exists (paramName, schema). }
  split; [exact Hval |].
  unfold BotModalState.param_error. cbv zeta. rewrite Hval. unfold default_or_blank.
  destruct (default_value schema) as [v |] eqn:Hdef.
  - split; [| discriminate]. destruct v as [| | b | n | s]; cbn [is_blank];
      try discriminate;
      repeat match goal with
        | |- context [if ?c then _ else _] => destruct c
        | |- context [match ?o with Some _ => _ | None => _ end] => destruct o
        end; discriminate.
  - cbn [is_blank]. rewrite bool_decide_eq_true_2 by reflexivity. tauto.
Qed.

End Checks.


(** An id that is one no-break space is white space only: in create mode
    the form reports it as missing, in edit mode as badly formed. *)
Lemma blank_id_is_required :
  BotModal.formErrors no_numeric_strings create (Some sma_strategy) blank_id_form !! "id"
  = Some (Text "Bot ID is required")
  /\ BotModal.formErrors no_numeric_strings edit (Some sma_strategy) blank_id_form !! "id"
     = Some (Text "Bot ID can only contain letters, numbers, hyphens, and underscores")
  /\ trim no_break_space = ""
  /\ trim "  my bot " = "my bot".
Proof. repeat split; reflexivity. Qed.

Lemma defaults_required_iff_no_default_witness :
  BotModalState.param_error no_numeric_strings (schemaDefaults pair_strategy)
    ("hedge_symbol"%string, mkSchema "string" None None None "second leg")
  = Some (Required "hedge_symbol").
Proof.
  assert (Hnd : NoDup (parameter_schema pair_strategy).*1).
  { cbn. apply NoDup_cons. split; [| apply NoDup_singleton].
    rewrite list_elem_of_singleton. discriminate. }
  refine (proj2 (proj2 (defaults_required_iff_no_default no_numeric_strings
                          pair_strategy "hedge_symbol"
                          (mkSchema "string" None None None "second leg") Hnd _))
            eq_refl).
  apply list_elem_of_further, list_elem_of_here.
Defined.

Lemma good_form_passes :
  all_checks_pass no_numeric_strings create (Some sma_strategy) good_form.
Proof.
  repeat split; try reflexivity; try discriminate.
  intros info [= <-]. repeat constructor.
Qed.

Lemma submit_sends_iff_valid_witness :
  List.filter is_mutation
    (handleSubmit no_numeric_strings create "" (Some sma_strategy) good_form true)
  = [CreateBotRequest good_form].
Proof.
  exact (proj1 (proj1 (submit_sends_iff_valid no_numeric_strings create ""
                         (Some sma_strategy) good_form true) good_form_passes)).
Defined.

Lemma validateForm_accepts_iff_witness :
  validateForm no_numeric_strings create (Some sma_strategy) good_form = true.
Proof.
  apply (proj2 (proj1 (validateForm_accepts_iff no_numeric_strings create
                         (Some sma_strategy) good_form))).
  repeat split; try reflexivity; try discriminate.
  intros info [= <-]. repeat constructor.
Defined.

End BotModalStateFacts.

(** ** What is typed into a numeric parameter *)

Module InputFacts.
Import BotModal BotModalState Examples.

Lemma or_zero_number n : isNaN (or_zero n) = false.
Proof. destruct n as [| q]; cbn; [reflexivity | now destruct (Qeq_bool q 0)]. Qed.

Lemma Number_isInteger_Z z : Number_isInteger (Num (inject_Z z)) = true.
Proof.
  cbn [Number_isInteger]. rewrite Qfloor_Z. apply Qeq_bool_iff. reflexivity.
Qed.

Lemma or_zero_integer n :
  n = NaN \/ (exists z, n = Num (inject_Z z)) -> Number_isInteger (or_zero n) = true.
Proof.
  intros [-> | (z & ->)]; cbn [or_zero].
  - apply (Number_isInteger_Z 0).
  - destruct (Qeq_bool (inject_Z z) 0); [apply (Number_isInteger_Z 0) |].
    apply Number_isInteger_Z.
Qed.

(** X15. Whatever is typed into the input of a "number" or "integer"
    parameter, the value stored by the change handler is a number, since
    text that does not parse (and an emptied field) becomes 0. Validation
    then never reports the parameter as required, as not a number or as not
    an integer: only its bounds can fail. [parseInt] is assumed to yield
    [NaN] or an integer. *)
Theorem typed_number_only_fails_bounds
    (Number_of_string parseInt parseFloat : string -> JsNumber)
    (schema : StrategyParameterSchema) (paramName target_value : string)
    (is_checkbox checked : bool) (prev : FormData) :
  (forall s, parseInt s = NaN \/ exists z, parseInt s = Num (inject_Z z)) ->
  sch_type schema = "number" \/ sch_type schema = "integer" ->
  let typed := convertInput parseInt parseFloat schema target_value is_checkbox checked in
  let next := handleParameterChange paramName typed prev in
  (exists q, param_value (parameters next) paramName = JsNum (Num q))
  /\ match param_error Number_of_string (parameters next) (paramName, schema) with
     | None | Some (AtLeast _ _) | Some (AtMost _ _) => True
     | Some _ => False
     end.
Proof.
  intros HparseInt Htype typed next.
  assert (Hval : param_value (parameters next) paramName = typed).
  { subst next. unfold param_value, handleParameterChange. cbn [parameters].
    now rewrite lookup_insert_eq. }
  assert (Htyped : exists n, typed = JsNum (or_zero n)
                             /\ (sch_type schema = "integer" ->
                                 Number_isInteger (or_zero n) = true)).
  { subst typed. unfold convertInput. destruct Htype as [Hty | Hty]; rewrite Hty.
    - exists (parseFloat target_value). split; [reflexivity | discriminate].
    - exists (parseInt target_value). split; [reflexivity |].
      intros _. apply or_zero_integer, HparseInt. }
  destruct Htyped as (n & Hn & Hint). rewrite Hval, Hn. split.
  - destruct n as [| q]; cbn [or_zero]; [now exists 0%Q |].
    destruct (Qeq_bool q 0); eauto.
  - unfold BotModalState.param_error. cbv zeta. rewrite Hval, Hn.
    cbn [is_blank Number]. rewrite or_zero_number, andb_false_r.
    destruct (bool_decide (sch_type schema = "integer")) eqn:Hisint; cbn [andb].
    + apply bool_decide_eq_true_1 in Hisint. rewrite (Hint Hisint). cbn [negb].
      destruct (minimum schema) as [lo |], (maximum schema) as [hi |];
        repeat match goal with
          | |- context [if ?c then _ else _] => destruct c
          end; exact I.
    + destruct (minimum schema) as [lo |], (maximum schema) as [hi |];
        repeat match goal with
          | |- context [if ?c then _ else _] => destruct c
          end; exact I.
Qed.

Lemma parse_25_integer s : parse_25 s = NaN \/ exists z, parse_25 s = Num (inject_Z z).
Proof.
  unfold parse_25. case_bool_decide; [right; now exists 25%Z | now left].
Qed.

Lemma typed_number_only_fails_bounds_witness :
  exists q,
    param_value
      (parameters
         (handleParameterChange "window"
            (convertInput parse_25 parse_25 window_schema "abc" false false)
            good_form))
      "window"
    = JsNum (Num q).
Proof.
  exact (proj1 (typed_number_only_fails_bounds no_numeric_strings parse_25 parse_25
                  window_schema "window" "abc" false false good_form parse_25_integer
                  (or_intror eq_refl))).
Defined.

(** What an emptied integer field becomes, and what validation says. *)
Lemma emptied_field_example :
  convertInput parse_25 parse_25 window_schema_no_default "" false false
  = JsNum (Num 0)
  /\ param_error no_numeric_strings
       {[ "window"%string := JsNum (Num 0) ]}
       ("window"%string, window_schema_no_default)
     = Some (AtLeast "window" 2).
Proof. split; reflexivity. Qed.

End InputFacts.
